(** * Multi-LLM Consensus Builder: the convergence protocol of [llm_consensus.py]

    A shallow embedding of class [LLMConsensus]: the reply parser shared by
    the three gateways, the two prompt builders, the consensus check and the
    loop of [get_consensus], followed by the properties of the protocol.

    Conventions of the embedding.
    - A Python [str] is a [string]; a character stands for a code point
      below 256, which is enough to decide [strip], [lower] and the
      comparison with ['true'].
    - A Python [dict] is a list of (key, value) pairs kept in insertion
      order; assigning to a key that is present keeps its position.
    - The services behind the gateways are outside the program: each one is
      a function from the number of requests it has already served in the
      run and the prompt to what comes back.
    - The program is embedded twice. The first embedding is the run in
      which every request comes back with a string: a [service] answers
      with a string. The second, [Wire], keeps what else a request can
      come to, an exception or a reply whose text is [None], and with it
      the lines of the source that only matter then. [wire_while_loop] and
      [lifted_run] relate the two: a run of [Wire] that no gateway failure
      interrupts is the run of the first embedding on the strings
      received. *)

From Stdlib Require Import List String Ascii Bool Arith ZArith Lia.
Import ListNotations.

Open Scope string_scope.

(** ** Python strings *)

Module PyStr.

Definition LF : ascii := ascii_of_nat 10.
Definition nl : string := String LF EmptyString.

(** [str.isspace] on one code point below 256: TAB, LF, VT, FF, CR, the
    four separators 0x1c-0x1f, the space, NEL (0x85) and NBSP (0xa0). *)
Definition isspace (c : ascii) : bool :=
  let n := nat_of_ascii c in
  (((9 <=? n) && (n <=? 13)) || ((28 <=? n) && (n <=? 32))
   || (n =? 133) || (n =? 160))%nat.

(** [str.lower] on one code point below 256: A-Z, and the Latin-1 capitals
    0xc0-0xde without the multiplication sign 0xd7, move up by 32. *)
Definition lower_char (c : ascii) : ascii :=
  let n := nat_of_ascii c in
  if (((65 <=? n) && (n <=? 90))
      || ((192 <=? n) && (n <=? 222) && negb (n =? 215)))%nat
  then ascii_of_nat (n + 32) else c.

Fixpoint lower (s : string) : string :=
  match s with
  | EmptyString => EmptyString
  | String c s' => String (lower_char c) (lower s')
  end.

Fixpoint lstrip (s : string) : string :=
  match s with
  | EmptyString => EmptyString
  | String c s' => if isspace c then lstrip s' else s
  end.

Fixpoint rstrip (s : string) : string :=
  match s with
  | EmptyString => EmptyString
  | String c s' =>
      match rstrip s' with
      | EmptyString => if isspace c then EmptyString else String c EmptyString
      | t => String c t
      end
  end.

(** [s.strip()] *)
Definition strip (s : string) : string := rstrip (lstrip s).

(** The text before the first line feed, and the text after it when there
    is one. *)
Fixpoint cut (s : string) : string * option string :=
  match s with
  | EmptyString => (EmptyString, None)
  | String c s' =>
      if Ascii.eqb c LF then (EmptyString, Some s')
      else let (h, r) := cut s' in (String c h, r)
  end.

(** ['\n' in s] *)
Fixpoint has_newline (s : string) : bool :=
  match s with
  | EmptyString => false
  | String c s' => Ascii.eqb c LF || has_newline s'
  end.

(** [s.split('\n', 1)]: one split at most, so one or two parts. *)
Definition split1 (s : string) : list string :=
  match cut s with
  | (h, Some r) => [h; r]
  | (h, None) => [h]
  end.

(** Truth value of a [str]: only the empty string is false. *)
Definition truthy (s : string) : bool :=
  match s with EmptyString => false | String _ _ => true end.

End PyStr.

(** ** Exceptions *)

Inductive exn : Type :=
| IndexError
| AttributeError
| TypeError
| RequestError (what : string).

Inductive result (A : Type) : Type :=
| Return (a : A)
| Raise (e : exn).
Arguments Return {A} a.
Arguments Raise {A} e.

(** [try: body / except: handler] with a bare [except]. *)
Definition try_except {A : Type} (body : result A) (handler : A) : A :=
  match body with
  | Return a => a
  | Raise _ => handler
  end.

(** [xs[0]] *)
Definition index0 {A : Type} (xs : list A) : result A :=
  match xs with
  | [] => Raise IndexError
  | x :: _ => Return x
  end.

(** ** Insertion-ordered dictionaries *)

Definition dict (V : Type) : Type := list (string * V).

Definition keys {V : Type} (d : dict V) : list string := map fst d.
Definition values {V : Type} (d : dict V) : list V := map snd d.

(** [d[k] = v] *)
Fixpoint dict_set {V : Type} (d : dict V) (k : string) (v : V) : dict V :=
  match d with
  | [] => [(k, v)]
  | (k', v') :: d' =>
      if String.eqb k' k then (k, v) :: d' else (k', v') :: dict_set d' k v
  end.

(** ** Gateways *)

Record ModelResponse : Type := {
  agrees : bool;
  response : string
}.

(** The body of the [try] block of [_ask_chatgpt], [_ask_gemini] and
    [_ask_claude], which is the same text in the three methods. *)
Definition parse_body (content : string) : result ModelResponse :=
  let parts := PyStr.split1 content in
  match parts with
  | [] => Raise IndexError
  | head :: rest =>
      let agrees := String.eqb (PyStr.lower (PyStr.strip head)) "true" in
      let response_text :=
        match rest with
        | part1 :: _ => PyStr.strip part1
        | [] => content
        end in
      Return {| agrees := agrees; response := response_text |}
  end.

(** The [except] branch. *)
Definition parse_fallback (content : string) : ModelResponse :=
  {| agrees := false; response := content |}.

Definition parse_reply (content : string) : ModelResponse :=
  try_except (parse_body content) (parse_fallback content).

(** A backing service whose requests all come back with a string: the text
    returned to its [n]-th request of the run (counted from 0) when that
    request carries [prompt]. *)
Definition service : Type := nat -> string -> string.

(** [model_func(prompt)] when the request comes back with a string: the
    service is called and its reply parsed. [Wire.ask] is the method with
    the other outcomes of the request. *)
Definition ask (svc : service) (n : nat) (prompt : string) : ModelResponse :=
  parse_reply (svc n prompt).

(** ** Prompt builders *)

(** The loop over [responses.items()] shared by the two builders: one
    paragraph per entry, the key, a colon and the response text. *)
Fixpoint list_responses (responses : dict ModelResponse) : string :=
  match responses with
  | [] => EmptyString
  | (model, resp) :: rest =>
      model ++ ":" ++ PyStr.nl ++ response resp ++ PyStr.nl ++ PyStr.nl
      ++ list_responses rest
  end.

Definition prompt_header (question : string)
    (responses : dict ModelResponse) : string :=
  "Original question: " ++ question ++ PyStr.nl ++ PyStr.nl
  ++ "Here are the responses from other AI models:" ++ PyStr.nl ++ PyStr.nl
  ++ list_responses responses.

Definition merge_instructions : string :=
  "Please merge these responses into a single, comprehensive answer that combines the best aspects of each response. "
  ++ PyStr.nl
  ++ "Your response should be in the following format:" ++ PyStr.nl
  ++ PyStr.nl
  ++ "True" ++ PyStr.nl
  ++ "[Merged response that combines the best aspects of all previous responses]"
  ++ PyStr.nl
  ++ PyStr.nl
  ++ "The first line must be 'True' to indicate you're providing a merged response.".

Definition feedback_instructions : string :=
  "Please review these responses and provide your feedback in the following format:"
  ++ PyStr.nl
  ++ PyStr.nl
  ++ "True" ++ PyStr.nl
  ++ "[Your merged response that combines the best aspects of all responses]"
  ++ PyStr.nl
  ++ PyStr.nl
  ++ "OR" ++ PyStr.nl
  ++ PyStr.nl
  ++ "False" ++ PyStr.nl
  ++ "[Your detailed response explaining why you disagree and what should be changed]"
  ++ PyStr.nl
  ++ PyStr.nl
  ++ "The first line must be exactly 'True' or 'False' to indicate whether you agree with the merged approach.".

Definition _create_merge_prompt (question : string)
    (responses : dict ModelResponse) : string :=
  prompt_header question responses ++ merge_instructions.

Definition _create_feedback_prompt (question : string)
    (responses : dict ModelResponse) : string :=
  prompt_header question responses ++ feedback_instructions.

(** ** Consensus check *)

(** [all(response["agrees"] for response in responses.values())] *)
Definition _check_consensus (responses : dict ModelResponse) : bool :=
  forallb agrees (values responses).

(** ** The consensus core *)

Record LLMConsensus : Type := {
  models : dict service;
  max_iterations : Z
}.

(** The dictionary literal of the constructor: the three gateways under
    their names. *)
Definition default_registry (chatgpt gemini claude : service)
    : dict service :=
  [("ChatGPT", chatgpt); ("Gemini", gemini); ("Claude", claude)].

(** The constructor: two assignments and no test. It takes no
    configuration; the three services behind the bound methods are the
    only thing it depends on. [models] and [max_iterations] are plain
    attributes of the object, and the properties of [get_consensus] below
    range over every value they can hold. *)
Definition __init__ (chatgpt gemini claude : service)
    : result LLMConsensus :=
  Return {| models := default_registry chatgpt gemini claude;
            max_iterations := 5 |}.

Definition default_core (chatgpt gemini claude : service)
    : result LLMConsensus :=
  __init__ chatgpt gemini claude.

(** One request of a round, as the run saw it: who was asked, with which
    prompt, what came back, and whether the reply was then stored in
    [merged_response]. *)
Record call : Type := {
  asked : string;
  prompt_sent : string;
  reply : ModelResponse;
  stored : bool
}.

(** One pass of the [while] loop: the iteration index, [responses] when the
    pass began, the requests in the order they were made, [responses] when
    the consensus check ran, and what the check said. *)
Record round : Type := {
  round_index : nat;
  before : dict ModelResponse;
  calls : list call;
  after : dict ModelResponse;
  verdict : bool
}.

(** What a run of [get_consensus] leaves behind: the value returned or the
    exception raised, the passes of the loop in order, and the last value
    of [merged_response]. *)
Record outcome : Type := {
  returned : result string;
  history : list round;
  candidate : option string
}.

Section Core.

Variable self : LLMConsensus.
Variable question : string.

(** The prompt of lines 128-135, chosen by the iteration index from the
    [responses] dictionary as it is when the agent is asked. *)
Definition select_prompt (iteration : nat)
    (responses : dict ModelResponse) : string :=
  match iteration with
  | 0 => question
  | 1 => _create_merge_prompt question responses
  | _ => _create_feedback_prompt question responses
  end.

(** [model_name == list(self.models.keys())[0]]; inside the loop over
    [self.models] the dictionary has an entry, so index 0 exists. *)
Definition is_first_model (model_name : string) : bool :=
  match keys (models self) with
  | [] => false
  | k :: _ => String.eqb model_name k
  end.

(** The [for] loop of lines 127-145 over the entries [ms] still to be
    asked: [responses] is updated in place after every request, and the
    next prompt is built from the updated dictionary. *)
Fixpoint ask_models (iteration : nat) (ms : dict service)
    (responses : dict ModelResponse) (merged_response : option string)
    : dict ModelResponse * option string * list call :=
  match ms with
  | [] => (responses, merged_response, [])
  | (model_name, model_func) :: ms' =>
      let prompt := select_prompt iteration responses in
      let response_ := ask model_func iteration prompt in
      let responses' := dict_set responses model_name response_ in
      let store := Nat.eqb iteration 1 && is_first_model model_name in
      let merged' :=
        if store then Some (response response_) else merged_response in
      let '(rs, m, cs) := ask_models iteration ms' responses' merged' in
      (rs, m,
       {| asked := model_name; prompt_sent := prompt;
          reply := response_; stored := store |} :: cs)
  end.

(** [merged_response if merged_response else
     list(responses.values())[0]["response"]]: [None] and the empty
    string are both false. *)
Definition final_answer (merged_response : option string)
    (responses : dict ModelResponse) : result string :=
  match merged_response with
  | Some text =>
      if PyStr.truthy text then Return text
      else match index0 (values responses) with
           | Return r => Return (response r)
           | Raise e => Raise e
           end
  | None =>
      match index0 (values responses) with
      | Return r => Return (response r)
      | Raise e => Raise e
      end
  end.

(** The [while] loop of lines 123-152 and the two lines after it. [passes]
    is [max_iterations - iteration], the number of passes the guard still
    allows; [iteration] grows by one per pass. *)
Fixpoint while_loop (passes : nat) (iteration : nat)
    (responses : dict ModelResponse) (merged_response : option string)
    : outcome :=
  match passes with
  | O =>
      {| returned := final_answer merged_response responses;
         history := [];
         candidate := merged_response |}
  | S passes' =>
      let '(rs, m, cs) :=
        ask_models iteration (models self) responses merged_response in
      let rd := {| round_index := iteration; before := responses; calls := cs;
                   after := rs; verdict := _check_consensus rs |} in
      if _check_consensus rs then
        {| returned := final_answer m rs;
           history := [rd];
           candidate := m |}
      else
        let rest := while_loop passes' (S iteration) rs m in
        {| returned := returned rest;
           history := rd :: history rest;
           candidate := candidate rest |}
  end.

Definition get_consensus : outcome :=
  while_loop (Z.to_nat (max_iterations self)) 0 [] None.

(** The record of the pass that starts at [iteration] with the given
    [responses] and [merged_response]. *)
Definition round_of (iteration : nat) (responses : dict ModelResponse)
    (merged_response : option string) : round :=
  let '(rs, _, cs) :=
    ask_models iteration (models self) responses merged_response in
  {| round_index := iteration; before := responses; calls := cs;
     after := rs; verdict := _check_consensus rs |}.

End Core.

(** A request after which [merged_response] was not assigned. *)
Definition unstored (c : call) : Prop := stored c = false.

(** The rounds [h] are numbered from [i] on, the first starts with the
    dictionary [rs], and each of the others starts with the dictionary the
    round before it ended with. *)
Fixpoint chained (i : nat) (rs : dict ModelResponse) (h : list round)
    : Prop :=
  match h with
  | [] => True
  | rd :: h' =>
      round_index rd = i /\ before rd = rs /\ chained (S i) (after rd) h'
  end.

(** An agent whose every reply parses as agreeing, or as disagreeing. *)
Definition always_agrees (svc : service) : Prop :=
  forall (n : nat) (prompt : string), agrees (ask svc n prompt) = true.

Definition always_disagrees (svc : service) : Prop :=
  forall (n : nat) (prompt : string), agrees (ask svc n prompt) = false.

(** The requests of a whole run, in the order they were made. *)
Definition all_calls (out : outcome) : list call :=
  flat_map calls (history out).

(** ** The gateways with their failures

    The definitions above describe a run in which every request comes back
    with a string. In the source a request can also raise, and the text
    field of a reply can be [None]; both happen before, or in, the [try]
    block of a gateway. [Wire] is the same program with these outcomes
    kept: [ask] is a gateway method in full, [ask_models] has the line
    that prints the first 200 characters of the response, and a run
    records where it was interrupted. *)

Module Wire.

(** What a request comes to when the [try] block is reached or missed: the
    text field of the reply ([message.content], [response.text],
    [content[0].text]), which may hold [None]; or an exception of the
    request or of the extraction of that field, both written before the
    [try], named by [what]. *)
Inductive fetched : Type :=
| Content (content : option string)
| Failed (what : string).

(** A backing service: what its [n]-th request of the run comes to. *)
Definition gateway : Type := nat -> string -> fetched.

(** The dictionary a gateway returns; ["response"] holds [content] itself
    in the [except] branch, so it can be [None]. *)
Record GatewayResponse : Type := {
  g_agrees : bool;
  g_response : option string
}.

(** The [try] block: [content.split] raises [AttributeError] on [None];
    on a string it is the parse of [parse_body]. *)
Definition parse_content_body (content : option string)
    : result GatewayResponse :=
  match content with
  | None => Raise AttributeError
  | Some text =>
      match parse_body text with
      | Return r =>
          Return {| g_agrees := agrees r; g_response := Some (response r) |}
      | Raise e => Raise e
      end
  end.

(** The [try] block with its [except] branch. *)
Definition parse_content (content : option string) : GatewayResponse :=
  try_except (parse_content_body content)
             {| g_agrees := false; g_response := content |}.

(** [_ask_chatgpt], [_ask_gemini], [_ask_claude]: the request and the
    extraction of the text, then the parse. *)
Definition ask (g : gateway) (n : nat) (prompt : string)
    : result GatewayResponse :=
  match g n prompt with
  | Failed what => Raise (RequestError what)
  | Content content => Return (parse_content content)
  end.

Record LLMConsensus : Type := {
  models : dict gateway;
  max_iterations : Z
}.

Definition __init__ (chatgpt gemini claude : gateway)
    : result LLMConsensus :=
  Return {| models := [("ChatGPT", chatgpt); ("Gemini", gemini);
                       ("Claude", claude)];
            max_iterations := 5 |}.

(** How the [for] loop of a round ends: every agent was asked, or an
    exception left the loop after the agents [asked_so_far] had been asked,
    the last of them being the one whose request or reply raised. *)
Inductive round_end : Type :=
| Completed (responses : dict ModelResponse)
            (merged_response : option string) (cs : list call)
| Aborted (e : exn) (asked_so_far : list string).

(** What a run leaves behind: as [outcome] above, the history being the
    rounds that reached their consensus check, and with the index of the
    round an exception interrupted and the agents asked in it. *)
Record outcome : Type := {
  returned : result string;
  history : list round;
  candidate : option string;
  interrupted : option (nat * list string)
}.

Section Core.

Variable self : LLMConsensus.
Variable question : string.

Definition is_first_model (model_name : string) : bool :=
  match keys (models self) with
  | [] => false
  | k :: _ => String.eqb model_name k
  end.

(** The [for] loop of lines 127-145. Line 139 stores the response, line
    141 slices its text and raises [TypeError] when the text is [None];
    [responses] is a local of [get_consensus] and is lost with the
    exception, so only responses with a text are ever read from it. *)
Fixpoint ask_models (iteration : nat) (ms : dict gateway)
    (responses : dict ModelResponse) (merged_response : option string)
    : round_end :=
  match ms with
  | [] => Completed responses merged_response []
  | (model_name, model_func) :: ms' =>
      let prompt := select_prompt question iteration responses in
      match ask model_func iteration prompt with
      | Raise e => Aborted e [model_name]
      | Return response_ =>
          match g_response response_ with
          | None => Aborted TypeError [model_name]
          | Some text =>
              let r := {| agrees := g_agrees response_;
                          response := text |} in
              let responses' := dict_set responses model_name r in
              let store :=
                Nat.eqb iteration 1 && is_first_model model_name in
              let merged' :=
                if store then Some text else merged_response in
              match ask_models iteration ms' responses' merged' with
              | Completed rs m cs =>
                  Completed rs m
                    ({| asked := model_name; prompt_sent := prompt;
                        reply := r; stored := store |} :: cs)
              | Aborted e names => Aborted e (model_name :: names)
              end
          end
      end
  end.

(** The [while] loop of lines 123-152 and the two lines after it; an
    exception of a round leaves [get_consensus]. *)
Fixpoint while_loop (passes : nat) (iteration : nat)
    (responses : dict ModelResponse) (merged_response : option string)
    : outcome :=
  match passes with
  | O =>
      {| returned := final_answer merged_response responses;
         history := [];
         candidate := merged_response;
         interrupted := None |}
  | S passes' =>
      match ask_models iteration (models self) responses
                       merged_response with
      | Aborted e names =>
          {| returned := Raise e;
             history := [];
             candidate := merged_response;
             interrupted := Some (iteration, names) |}
      | Completed rs m cs =>
          let rd := {| round_index := iteration; before := responses;
                       calls := cs; after := rs;
                       verdict := _check_consensus rs |} in
          if _check_consensus rs then
            {| returned := final_answer m rs;
               history := [rd];
               candidate := m;
               interrupted := None |}
          else
            let rest := while_loop passes' (S iteration) rs m in
            {| returned := returned rest;
               history := rd :: history rest;
               candidate := candidate rest;
               interrupted := interrupted rest |}
      end
  end.

Definition get_consensus : outcome :=
  while_loop (Z.to_nat (max_iterations self)) 0 [] None.

End Core.

End Wire.

(** A service that always answers with a string, as a gateway. *)
Definition lift (svc : service) : Wire.gateway :=
  fun n prompt => Wire.Content (Some (svc n prompt)).

(** The strings a gateway answers with, where it answers with one. *)
Definition text_of (g : Wire.gateway) : service :=
  fun n prompt =>
    match g n prompt with
    | Wire.Content (Some text) => text
    | _ => EmptyString
    end.

Definition texts_of (self : Wire.LLMConsensus) : LLMConsensus :=
  {| models := map (fun e => (fst e, text_of (snd e))) (Wire.models self);
     max_iterations := Wire.max_iterations self |}.

(** The exceptions that come from a gateway: one raised by a request, and
    the [TypeError] of line 141 after a reply without text. *)
Definition gateway_failure (e : exn) : Prop :=
  e = TypeError \/ exists what : string, e = RequestError what.

(** ** Sample services and cores

    Concrete inputs on which the properties below are evaluated. *)

Module Samples.

(** A reply made of a first line and a body. *)
Definition two_parts (first_line body : string) : string :=
  first_line ++ PyStr.nl ++ body.

(** A service that answers [True] to every request, with a body that
    tells the requests apart. *)
Definition agreeing (tag : string) : service :=
  fun n _ =>
    match n with
    | 0 => two_parts "True" (tag ++ " initial")
    | 1 => two_parts "True" (tag ++ " merged")
    | _ => two_parts "True" (tag ++ " reviewed")
    end.

(** A service that answers [False] to every request. *)
Definition disagreeing (tag : string) : service :=
  fun n _ =>
    match n with
    | 0 => two_parts "False" (tag ++ " initial")
    | 1 => two_parts "False" (tag ++ " merged")
    | _ => two_parts "False" (tag ++ " reviewed")
    end.

(** A service that answers [False] to every request and sends nothing
    after the first line in the merge round. *)
Definition terse : service :=
  fun n _ =>
    match n with
    | 1 => two_parts "False" ""
    | _ => two_parts "False" "a longer answer"
    end.

Definition all_agree_core : LLMConsensus :=
  {| models := default_registry (agreeing "chatgpt") (agreeing "gemini")
                                (agreeing "claude");
     max_iterations := 5 |}.

Definition none_agree_core : LLMConsensus :=
  {| models := default_registry (disagreeing "chatgpt")
                                (disagreeing "gemini")
                                (disagreeing "claude");
     max_iterations := 5 |}.

Definition terse_core : LLMConsensus :=
  {| models := default_registry terse (agreeing "gemini")
                                (agreeing "claude");
     max_iterations := 5 |}.

Definition one_round_core : LLMConsensus :=
  {| models := default_registry (disagreeing "chatgpt")
                                (agreeing "gemini") (agreeing "claude");
     max_iterations := 1 |}.

Definition no_agent_core : LLMConsensus :=
  {| models := []; max_iterations := 5 |}.


(** A gateway whose reply to the first request has no text. *)
Definition silent : Wire.gateway :=
  fun n prompt =>
    match n with
    | 0 => Wire.Content None
    | _ => Wire.Content (Some (two_parts "True" "an answer"))
    end.

(** The registry of the source with a Gemini that sends no text. *)
Definition silent_gemini_core : Wire.LLMConsensus :=
  {| Wire.models := [("ChatGPT", lift (agreeing "chatgpt"));
                     ("Gemini", silent);
                     ("Claude", lift (agreeing "claude"))];
     Wire.max_iterations := 5 |}.

End Samples.

(** ** Vocabulary for the properties of the parser *)

(** [s.isspace()] or [s == ""]: nothing but white space. *)
Fixpoint all_space (s : string) : bool :=
  match s with
  | EmptyString => true
  | String c s' => PyStr.isspace c && all_space s'
  end.

Definition starts_with_space (s : string) : bool :=
  match s with
  | EmptyString => false
  | String c _ => PyStr.isspace c
  end.

Fixpoint ends_with_space (s : string) : bool :=
  match s with
  | EmptyString => false
  | String c EmptyString => PyStr.isspace c
  | String _ s' => ends_with_space s'
  end.

(** One of the two spellings of a letter. *)
Definition either_case (small capital c : ascii) : bool :=
  Ascii.eqb c small || Ascii.eqb c capital.

(** The sixteen spellings of [true]: four letters, each in either case. *)
Definition spells_true (s : string) : bool :=
  match s with
  | String c1 (String c2 (String c3 (String c4 EmptyString))) =>
      either_case "t" "T" c1 && either_case "r" "R" c2
      && either_case "u" "U" c3 && either_case "e" "E" c4
  | _ => false
  end.

(** [content.split('\n', 1)[0]] *)
Definition first_line (content : string) : string :=
  fst (PyStr.cut content).

(** ** The command line *)

Module Cli.

(** The list of line 159; the third key is commented out there. *)
Definition required_keys : list string :=
  ["OPENAI_API_KEY_personal"; "GEMINI_API_KEY"].

(** The environment: [os.getenv(key)] is [None] or a string. *)
Definition environment : Type := string -> option string.

(** [not os.getenv(key)]: the variable is unset, or set to the empty
    string. *)
Definition unset (getenv : environment) (key : string) : bool :=
  match getenv key with
  | None => true
  | Some value => negb (PyStr.truthy value)
  end.

(** [[key for key in required_keys if not os.getenv(key)]] *)
Definition missing_keys (getenv : environment) : list string :=
  filter (unset getenv) required_keys.

(** [sep.join(xs)] *)
Fixpoint join (sep : string) (xs : list string) : string :=
  match xs with
  | [] => EmptyString
  | [x] => x
  | x :: xs' => x ++ sep ++ join sep xs'
  end.

(** What [main] does that can be seen from outside: a line printed, the
    prompt of [input], and a call of [get_consensus] with what that call
    left behind (its own printing is not modelled). *)
Inductive action : Type :=
| Printed (line : string)
| Prompted (text : string)
| Consulted (question : string) (out : Wire.outcome).

(** How [main] ends: it returns, or [input] finds the end of the input and
    raises [EOFError], or an exception leaves [get_consensus]. *)
Inductive ending : Type :=
| Returned
| EOFError
| CoreRaised (e : exn).

(** What the three gateways do during each call of [get_consensus], calls
    being counted from 0. The gateways take their keys from the
    environment (lines 20, 21 and 52), so what they do depends on it. The
    object is built once, by [LLMConsensus()]; only what its gateways do
    can change from one call to the next. *)
Definition backend : Type :=
  environment -> nat -> Wire.gateway * Wire.gateway * Wire.gateway.

Definition consensus_of (getenv : environment) (services : backend)
    (run : nat) : Wire.LLMConsensus :=
  let '(chatgpt, gemini, claude) := services getenv run in
  {| Wire.models := [("ChatGPT", chatgpt); ("Gemini", gemini);
                     ("Claude", claude)];
     Wire.max_iterations := 5 |}.

Definition input_prompt : string :=
  PyStr.nl ++ "Enter your question (or 'quit' to exit): ".

Definition starting_line : string :=
  PyStr.nl ++ "Starting consensus building process...".

Definition final_line : string :=
  PyStr.nl ++ "Final Merged Answer:".

(** The [while True] loop of lines 169-178 over the lines still to be read
    from the standard input. *)
Fixpoint read_questions (getenv : environment) (services : backend)
    (run : nat) (stdin : list string) : list action * ending :=
  match stdin with
  | [] => ([Prompted input_prompt], EOFError)
  | question :: rest =>
      if String.eqb (PyStr.lower question) "quit" then
        ([Prompted input_prompt], Returned)
      else
        let out :=
          Wire.get_consensus (consensus_of getenv services run) question in
        match Wire.returned out with
        | Raise e =>
            ([Prompted input_prompt; Printed starting_line;
              Consulted question out],
             CoreRaised e)
        | Return final_answer =>
            let '(actions, how) :=
              read_questions getenv services (S run) rest in
            (Prompted input_prompt :: Printed starting_line
             :: Consulted question out
             :: Printed final_line :: Printed final_answer :: actions,
             how)
        end
  end.

(** [main()] *)
Definition main (getenv : environment) (services : backend)
    (stdin : list string) : list action * ending :=
  match missing_keys getenv with
  | [] => read_questions getenv services 0 stdin
  | missing =>
      ([Printed ("Error: Missing API keys for: " ++ join ", " missing);
        Printed "Please set these environment variables in a .env file"],
       Returned)
  end.

(** The questions [main] passed to [get_consensus], in order. *)
Fixpoint consulted (actions : list action) : list string :=
  match actions with
  | [] => []
  | Consulted question _ :: rest => question :: consulted rest
  | _ :: rest => consulted rest
  end.



End Cli.

(** * Properties *)

(** ** The reply parser *)

Section Parser.

Import PyStr.

Lemma cut_at_first_newline (head rest : string) :
  has_newline head = false -> cut (head ++ nl ++ rest) = (head, Some rest).
Proof.
  change (nl ++ rest) with (String LF rest).
  induction head as [|c head IH]; simpl; intros H.
  - reflexivity.
  - apply orb_false_elim in H as [Hc Hh].
    rewrite Hc, (IH Hh). reflexivity.
Qed.

Lemma cut_without_newline (s : string) :
  has_newline s = false -> cut s = (s, None).
Proof.
  induction s as [|c s IH]; simpl; intros H.
  - reflexivity.
  - apply orb_false_elim in H as [Hc Hs].
    rewrite Hc, (IH Hs). reflexivity.
Qed.

Lemma parse_body_returns (content : string) :
  parse_body content = Return (parse_reply content).
Proof.
  unfold parse_reply, parse_body, split1.
  destruct (cut content) as [h [r|]]; reflexivity.
Qed.

Lemma parse_reply_two_parts (head rest : string) :
  has_newline head = false ->
  parse_reply (head ++ nl ++ rest)
  = {| agrees := String.eqb (lower (strip head)) "true";
       response := strip rest |}.
Proof.
  intros H. unfold parse_reply, parse_body, split1.
  rewrite (cut_at_first_newline head rest H). reflexivity.
Qed.

Lemma parse_reply_one_part (content : string) :
  has_newline content = false ->
  parse_reply content
  = {| agrees := String.eqb (lower (strip content)) "true";
       response := content |}.
Proof.
  intros H. unfold parse_reply, parse_body, split1.
  rewrite (cut_without_newline content H). reflexivity.
Qed.

End Parser.

(** C4, as stated, fails: the text kept from a two-part reply is not the
    remainder after the first line break but that remainder with the white
    space at both ends removed. For the reply made of [True], a line break
    and [ foo] the remainder starts with a space and the text kept does not. *)
Lemma parse_reply_text_is_not_the_remainder :
  ~ (forall head rest : string,
        PyStr.has_newline head = false ->
        parse_reply (head ++ PyStr.nl ++ rest)
        = {| agrees := String.eqb (PyStr.lower (PyStr.strip head)) "true";
             response := rest |}).
Proof.
  intros H. specialize (H "True" " foo" eq_refl). discriminate H.
Qed.

(** C4, amended: for every raw output, [agrees] tells whether the text
    before the first line break, stripped and lowercased, is [true]; the
    text is the remainder after the first line break with the white space
    at both ends stripped when there is a line break, and the whole raw
    output, unstripped, when there is none. The three sample replies parse
    as the claim says. On a string the parse raises nothing, so the result
    is always the parsed one; the [except] branch is [agrees = false] with
    the raw output. *)
Theorem parse_reply_strips_both_parts :
  (forall head rest : string,
      PyStr.has_newline head = false ->
      parse_reply (head ++ PyStr.nl ++ rest)
      = {| agrees := String.eqb (PyStr.lower (PyStr.strip head)) "true";
           response := PyStr.strip rest |})
  /\ (forall content : string,
        PyStr.has_newline content = false ->
        parse_reply content
        = {| agrees := String.eqb (PyStr.lower (PyStr.strip content)) "true";
             response := content |})
  /\ parse_reply ("True" ++ PyStr.nl ++ "foo bar")
     = {| agrees := true; response := "foo bar" |}
  /\ parse_reply "garbage with no match"
     = {| agrees := false; response := "garbage with no match" |}
  /\ agrees (parse_reply (" TRUE " ++ PyStr.nl ++ "X")) = true
  /\ (forall content : string,
        parse_body content = Return (parse_reply content))
  /\ (forall (content : string) (e : exn),
        try_except (Raise e) (parse_fallback content)
        = {| agrees := false; response := content |}).
Proof.
  split; [exact parse_reply_two_parts|].
  split; [exact parse_reply_one_part|].
  split; [reflexivity|].
  split; [reflexivity|].
  split; [reflexivity|].
  split; [exact parse_body_returns|].
  reflexivity.
Qed.

Lemma parse_reply_strips_both_parts_on_samples :
  parse_reply ("  tRuE" ++ PyStr.nl ++ "  padded answer  ")
  = {| agrees := true; response := "padded answer" |}
  /\ parse_reply "  true  " = {| agrees := true; response := "  true  " |}.
Proof.
  destruct parse_reply_strips_both_parts as (Htwo & Hone & _).
  split.
  - exact (Htwo "  tRuE" "  padded answer  " eq_refl).
  - exact (Hone "  true  " eq_refl).
Defined.

(** ** The consensus check *)

Lemma in_values_iff {V : Type} (d : dict V) (v : V) :
  In v (values d) <-> exists k, In (k, v) d.
Proof.
  unfold values. rewrite in_map_iff. split.
  - intros [[k v'] [E H]]. simpl in E. subst v'. now exists k.
  - intros [k H]. now exists (k, v).
Qed.

Lemma check_consensus_true_iff (responses : dict ModelResponse) :
  _check_consensus responses = true
  <-> forall (model : string) (r : ModelResponse),
        In (model, r) responses -> agrees r = true.
Proof.
  unfold _check_consensus. rewrite forallb_forall. split.
  - intros H model r Hin. apply H. apply in_values_iff. now exists model.
  - intros H r Hin. apply in_values_iff in Hin as [k Hk]. exact (H k r Hk).
Qed.

Lemma check_consensus_false_iff (responses : dict ModelResponse) :
  _check_consensus responses = false
  <-> exists (model : string) (r : ModelResponse),
        In (model, r) responses /\ agrees r = false.
Proof.
  unfold _check_consensus. split.
  - intros H.
    assert (E : existsb (fun r => negb (agrees r)) (values responses) = true).
    { induction (values responses) as [|r l IH]; simpl in *.
      - discriminate.
      - destruct (agrees r); simpl in *; auto. }
    apply existsb_exists in E as [r [Hin Hr]].
    apply in_values_iff in Hin as [k Hk].
    exists k, r. split; [exact Hk | now destruct (agrees r)].
  - intros (model & r & Hin & Hr).
    destruct (forallb agrees (values responses)) eqn:E; [|reflexivity].
    rewrite forallb_forall in E.
    rewrite E in Hr; [discriminate|].
    apply in_values_iff. now exists model.
Qed.

(** C6: the consensus check is true exactly when the [agrees] flag of every
    entry of the round's responses is true, and it is true of the empty
    dictionary. *)
Theorem check_consensus_iff_all_agree :
  forall responses : dict ModelResponse,
    (_check_consensus responses = true
     <-> forall (model : string) (r : ModelResponse),
           In (model, r) responses -> agrees r = true)
    /\ _check_consensus [] = true.
Proof.
  intros responses. split; [apply check_consensus_true_iff | reflexivity].
Qed.

(** ** Dictionaries *)

Local Open Scope list_scope.

Section Dict.

Context {V : Type}.

Lemma keys_app (d1 d2 : dict V) : keys (d1 ++ d2) = keys d1 ++ keys d2.
Proof. apply map_app. Qed.

Lemma keys_nil_inv (d : dict V) : keys d = [] -> d = [].
Proof. destruct d; [reflexivity | discriminate]. Qed.

(** Assignment adds the key when it is new and nothing else. *)
Lemma dict_set_keys (d : dict V) (k : string) (v : V) (k' : string) :
  In k' (keys (dict_set d k v)) <-> In k' (keys d) \/ k' = k.
Proof.
  induction d as [|[k0 v0] d IH]; simpl.
  - intuition.
  - destruct (String.eqb k0 k) eqn:E; simpl.
    + apply String.eqb_eq in E. subst k0. intuition.
    + rewrite IH. intuition.
Qed.

(** Assignment leaves alone a prefix that does not hold the key. *)
Lemma dict_set_fresh (d1 d2 : dict V) (k : string) (v : V) :
  ~ In k (keys d1) -> dict_set (d1 ++ d2) k v = d1 ++ dict_set d2 k v.
Proof.
  induction d1 as [|[k0 v0] d1 IH]; simpl; intros H.
  - reflexivity.
  - destruct (String.eqb k0 k) eqn:E.
    + apply String.eqb_eq in E. subst k0. exfalso. apply H. now left.
    + rewrite IH; [reflexivity | intros Hin; apply H; now right].
Qed.

(** Assignment to the first key replaces the first value in place. *)
Lemma dict_set_head (d : dict V) (k : string) (v0 v : V) :
  dict_set ((k, v0) :: d) k v = (k, v) :: d.
Proof. simpl. now rewrite String.eqb_refl. Qed.

End Dict.

(** ** One round *)

Section Round.

Variable self : LLMConsensus.
Variable question : string.

Local Abbreviation ask_all := (ask_models self question).
Local Abbreviation prompt_for := (select_prompt question).

Lemma ask_models_cons (i : nat) (name : string) (svc : service)
    (ms : dict service) (rs : dict ModelResponse) (m : option string) :
  ask_all i ((name, svc) :: ms) rs m
  = let r := ask svc i (prompt_for i rs) in
    let store := Nat.eqb i 1 && is_first_model self name in
    let rest := ask_all i ms (dict_set rs name r)
                  (if store then Some (response r) else m) in
    (fst (fst rest), snd (fst rest),
     {| asked := name; prompt_sent := prompt_for i rs;
        reply := r; stored := store |} :: snd rest).
Proof.
  simpl.
  destruct (ask_models _ _ _ _ _ _) as [[rs' m'] cs'].
  reflexivity.
Qed.


(** The keys after the loop are the keys before it and the agents asked. *)
Lemma ask_models_keys (i : nat) (ms : dict service) :
  forall rs m k,
    In k (keys (fst (fst (ask_all i ms rs m))))
    <-> In k (keys rs) \/ In k (keys ms).
Proof.
  induction ms as [|[name svc] ms IH]; intros rs m k.
  - simpl. intuition.
  - rewrite ask_models_cons. simpl. rewrite IH, dict_set_keys.
    intuition.
Qed.

(** Agents that always agree leave an agreeing dictionary agreeing. *)
Lemma ask_models_all_agree (i : nat) (ms : dict service) :
  (forall k svc, In (k, svc) ms ->
     forall n p, agrees (ask svc n p) = true) ->
  forall rs m,
    _check_consensus rs = true ->
    _check_consensus (fst (fst (ask_all i ms rs m))) = true.
Proof.
  induction ms as [|[name svc] ms IH]; intros Hall rs m Hrs.
  - exact Hrs.
  - rewrite ask_models_cons. simpl. apply IH.
    + intros k s Hin. apply (Hall k s). now right.
    + apply check_consensus_true_iff.
      intros model r Hin.
      assert (Hk : forall (d : dict ModelResponse) k v,
                 In (model, r) (dict_set d k v) ->
                 In (model, r) d \/ r = v).
      { clear. induction d as [|[k0 v0] d IHd]; simpl; intros k v H.
        - destruct H as [H|[]]. inversion H. now right.
        - destruct (String.eqb k0 k); simpl in H.
          + destruct H as [H|H]; [inversion H; now right | left; now right].
          + destruct H as [H|H]; [left; now left |].
            destruct (IHd _ _ H); [left; now right | now right]. }
      destruct (Hk _ _ _ Hin) as [Hold|Hnew].
      * apply (proj1 (check_consensus_true_iff rs) Hrs model r Hold).
      * subst r. apply (Hall name svc). now left.
Qed.

(** The dictionary during a round, under the uniqueness of keys that a
    [dict] guarantees. [done] holds the replies of the agents already asked
    in this round; [old] is what is left of the dictionary the round began
    with: nothing in round 0, one entry per agent still to ask afterwards.
    The round ends with [done] followed by the replies [new] of the agents
    [ms], and the [n]-th of them was asked with the prompt built from
    [done], the first [n] replies of [new] and the entries of [old] from
    position [n] on. *)
Lemma ask_models_shape (i : nat) (ms : dict service) :
  forall (done old : dict ModelResponse) (m : option string),
    NoDup (keys done ++ keys ms) ->
    old = [] \/ keys old = keys ms ->
    exists new : dict ModelResponse,
      fst (fst (ask_all i ms (done ++ old) m)) = done ++ new
      /\ keys new = keys ms
      /\ forall (n : nat) (c : call),
           nth_error (snd (ask_all i ms (done ++ old) m)) n = Some c ->
           prompt_sent c
           = prompt_for i (done ++ firstn n new ++ skipn n old)
           /\ nth_error new n = Some (asked c, reply c)
           /\ exists svc : service,
                nth_error ms n = Some (asked c, svc)
                /\ reply c = ask svc i (prompt_sent c).
Proof.
  induction ms as [|[name svc] ms IH]; intros done old m ND Hold.
  - exists []. simpl.
    assert (old = []) as -> by (destruct Hold; auto using keys_nil_inv).
    split; [reflexivity|]. split; [reflexivity|].
    intros n c H. destruct n; discriminate.
  - rewrite ask_models_cons. cbv zeta.
    set (r := ask svc i (prompt_for i (done ++ old))).
    set (m' := if Nat.eqb i 1 && is_first_model self name
               then Some (response r) else m).
    simpl in ND.
    assert (Hfresh : ~ In name (keys done)).
    { intros Hin. apply NoDup_remove_2 in ND. apply ND.
      apply in_or_app. now left. }
    assert (Hset : exists old',
               dict_set (done ++ old) name r = (done ++ [(name, r)]) ++ old'
               /\ (old' = [] \/ keys old' = keys ms)
               /\ forall n, skipn (S n) old = skipn n old').
    { rewrite (dict_set_fresh _ _ _ _ Hfresh).
      destruct Hold as [-> | Hk].
      - exists []. simpl. rewrite <- app_assoc. repeat split; auto.
        intros n. now destruct n.
      - destruct old as [|[k0 v0] old']; [discriminate|].
        simpl in Hk. injection Hk as -> Hk.
        exists old'. rewrite dict_set_head, <- app_assoc.
        repeat split; auto. }
    destruct Hset as (old' & -> & Hold' & Hskip).
    assert (ND' : NoDup (keys (done ++ [(name, r)]) ++ keys ms)).
    { rewrite keys_app, <- app_assoc. exact ND. }
    destruct (IH (done ++ [(name, r)]) old' m' ND' Hold')
      as (new' & Hrs & Hkeys & Hcalls).
    exists ((name, r) :: new'). simpl.
    split; [rewrite Hrs, <- app_assoc; reflexivity|].
    split; [now rewrite Hkeys|].
    intros [|n] c Hc; simpl in Hc.
    + injection Hc as <-. simpl. repeat split.
      exists svc. split; reflexivity.
    + destruct (Hcalls n c Hc) as (Hp & Hn & Hs).
      split; [|split; assumption].
      rewrite Hp, <- app_assoc, Hskip. reflexivity.
Qed.

(** *** Assignments to [merged_response] within a round *)

(** A round that is not the merge round, or that asks no first-registered
    agent, leaves [merged_response] as it was. *)
Lemma ask_models_unstored (i : nat) (ms : dict service) :
  (forall k, In k (keys ms) ->
     Nat.eqb i 1 && is_first_model self k = false) ->
  forall rs m,
    snd (fst (ask_all i ms rs m)) = m
    /\ Forall unstored (snd (ask_all i ms rs m)).
Proof.
  induction ms as [|[name svc] ms IH]; intros Hno rs m.
  - split; [reflexivity | constructor].
  - rewrite ask_models_cons. cbv zeta. simpl.
    rewrite (Hno name (or_introl eq_refl)).
    destruct (IH (fun k Hk => Hno k (or_intror Hk))
                 (dict_set rs name (ask svc i (prompt_for i rs))) m)
      as [Hm Hcs].
    split; [exact Hm | constructor; [reflexivity | exact Hcs]].
Qed.

Lemma is_first_model_head (k0 : string) (svc0 : service)
    (rest : dict service) (k : string) :
  models self = (k0, svc0) :: rest ->
  is_first_model self k = String.eqb k k0.
Proof. intros H. unfold is_first_model. now rewrite H. Qed.

(** The merge round stores the reply of the first-registered agent and of
    no other. *)
Lemma ask_models_first_stores (k0 : string) (svc0 : service)
    (rest : dict service) :
  models self = (k0, svc0) :: rest ->
  NoDup (keys (models self)) ->
  forall rs m,
  exists (c0 : call) (cs : list call),
    snd (ask_all 1 (models self) rs m) = c0 :: cs
    /\ asked c0 = k0
    /\ prompt_sent c0 = prompt_for 1 rs
    /\ reply c0 = ask svc0 1 (prompt_for 1 rs)
    /\ stored c0 = true
    /\ Forall unstored cs
    /\ snd (fst (ask_all 1 (models self) rs m)) = Some (response (reply c0)).
Proof.
  intros Hms ND rs m.
  assert (Hfirst : is_first_model self k0 = true).
  { rewrite (is_first_model_head _ _ _ _ Hms). apply String.eqb_refl. }
  assert (Hrest : forall k, In k (keys rest) ->
            Nat.eqb 1 1 && is_first_model self k = false).
  { intros k Hk. rewrite (is_first_model_head _ _ _ _ Hms). simpl.
    apply String.eqb_neq. intros ->.
    rewrite Hms in ND. simpl in ND. inversion ND; contradiction. }
  pose proof (ask_models_cons 1 k0 svc0 rest rs m) as E.
  rewrite <- Hms in E. rewrite E. cbv zeta. rewrite Hfirst. simpl.
  destruct (ask_models_unstored 1 rest Hrest
              (dict_set rs k0 (ask svc0 1 (prompt_for 1 rs)))
              (Some (response (ask svc0 1 (prompt_for 1 rs)))))
    as [Hm Hcs].
  eexists; eexists. split; [reflexivity|]. simpl.
  repeat split; assumption.
Qed.

(** *** The loop, one pass at a time *)

Local Abbreviation loop := (while_loop self question).

Local Abbreviation this_round := (round_of self question).

Lemma round_of_eq (i : nat) (rs : dict ModelResponse) (m : option string) :
  this_round i rs m
  = {| round_index := i;
       before := rs;
       calls := snd (ask_all i (models self) rs m);
       after := fst (fst (ask_all i (models self) rs m));
       verdict :=
         _check_consensus (fst (fst (ask_all i (models self) rs m))) |}.
Proof.
  unfold round_of.
  destruct (ask_models self question i (models self) rs m)
    as [[rs' m'] cs'].
  reflexivity.
Qed.



Lemma round_of_index (i : nat) (rs : dict ModelResponse)
    (m : option string) :
  round_index (this_round i rs m) = i.
Proof. now rewrite round_of_eq. Qed.

Lemma round_of_before (i : nat) (rs : dict ModelResponse)
    (m : option string) :
  before (this_round i rs m) = rs.
Proof. now rewrite round_of_eq. Qed.

Lemma round_of_calls (i : nat) (rs : dict ModelResponse)
    (m : option string) :
  calls (this_round i rs m) = snd (ask_all i (models self) rs m).
Proof. now rewrite round_of_eq. Qed.

Lemma round_of_after (i : nat) (rs : dict ModelResponse)
    (m : option string) :
  after (this_round i rs m) = fst (fst (ask_all i (models self) rs m)).
Proof. now rewrite round_of_eq. Qed.

Lemma round_of_verdict (i : nat) (rs : dict ModelResponse)
    (m : option string) :
  verdict (this_round i rs m) = _check_consensus (after (this_round i rs m)).
Proof. now rewrite round_of_eq. Qed.


Lemma while_loop_pass (p i : nat) (rs : dict ModelResponse)
    (m : option string) :
  loop (S p) i rs m
  = let rd := this_round i rs m in
    let m' := snd (fst (ask_all i (models self) rs m)) in
    if verdict rd then
      {| returned := final_answer m' (after rd);
         history := [rd];
         candidate := m' |}
    else
      {| returned := returned (loop p (S i) (after rd) m');
         history := rd :: history (loop p (S i) (after rd) m');
         candidate := candidate (loop p (S i) (after rd) m') |}.
Proof.
  rewrite round_of_eq. simpl.
  destruct (ask_models self question i (models self) rs m)
    as [[rs' m'] cs'].
  reflexivity.
Qed.

(** Induction over the passes of the loop: a property of rounds holds of
    every round of the history when it follows, pass by pass, from an
    invariant of the loop variables. *)
Lemma history_invariant
    (Inv : nat -> dict ModelResponse -> option string -> Prop)
    (P : round -> Prop) :
  (forall i rs m, Inv i rs m ->
     P (this_round i rs m)
     /\ Inv (S i) (after (this_round i rs m))
            (snd (fst (ask_all i (models self) rs m)))) ->
  forall p i rs m, Inv i rs m -> Forall P (history (loop p i rs m)).
Proof.
  intros Hstep. induction p as [|p IH]; intros i rs m HI.
  - constructor.
  - rewrite while_loop_pass. cbv zeta.
    destruct (Hstep i rs m HI) as [HP HI'].
    destruct (verdict (this_round i rs m)); simpl.
    + constructor; [exact HP | constructor].
    + constructor; [exact HP | apply IH; exact HI'].
Qed.


(** From the third pass on, [merged_response] is never assigned. *)
Lemma while_loop_keeps_candidate (p : nat) :
  forall i rs m,
    2 <= i ->
    candidate (loop p i rs m) = m
    /\ Forall (fun rd => Forall unstored (calls rd) /\ 2 <= round_index rd)
              (history (loop p i rs m)).
Proof.
  induction p as [|p IH]; intros i rs m Hi.
  - split; [reflexivity | constructor].
  - assert (Hno : forall k, In k (keys (models self)) ->
              Nat.eqb i 1 && is_first_model self k = false).
    { intros k _. replace (Nat.eqb i 1) with false; [reflexivity|].
      symmetry. apply Nat.eqb_neq. lia. }
    destruct (ask_models_unstored i (models self) Hno rs m) as [Hm Hcs].
    rewrite while_loop_pass. cbv zeta. rewrite Hm.
    destruct (verdict (this_round i rs m)); simpl.
    + split; [reflexivity|]. constructor; [|constructor].
      rewrite round_of_calls, round_of_index. split; [exact Hcs | exact Hi].
    + destruct (IH (S i) (after (this_round i rs m)) m) as [Hc Hh]; [lia|].
      split; [exact Hc|]. constructor; [|exact Hh].
      rewrite round_of_calls, round_of_index. split; [exact Hcs | exact Hi].
Qed.

(** *** Facts about every round of a run *)

(** Each request of a round goes to one entry of the registry, in order,
    and its reply is what that entry's service sent back. *)
Lemma ask_models_calls (i : nat) (ms : dict service) :
  forall rs m,
    Forall2 (fun (c : call) (e : string * service) =>
               asked c = fst e /\ reply c = ask (snd e) i (prompt_sent c))
            (snd (ask_all i ms rs m)) ms.
Proof.
  induction ms as [|[name svc] ms IH]; intros rs m.
  - constructor.
  - rewrite ask_models_cons. cbv zeta. simpl.
    constructor; [split; reflexivity | apply IH].
Qed.

(** In round 0 every agent is asked the question itself. *)
Lemma ask_models_round_0_prompts (ms : dict service) :
  forall rs m,
    Forall (fun c => prompt_sent c = question) (snd (ask_all 0 ms rs m)).
Proof.
  induction ms as [|[name svc] ms IH]; intros rs m.
  - constructor.
  - rewrite ask_models_cons. cbv zeta. simpl.
    constructor; [reflexivity | apply IH].
Qed.

(** Round 0 fills the empty dictionary with one reply per agent. *)
Lemma ask_models_round_0 (ms : dict service) :
  forall done m,
    NoDup (keys done ++ keys ms) ->
    fst (fst (ask_all 0 ms done m))
    = done ++ map (fun e => (fst e, ask (snd e) 0 question)) ms.
Proof.
  induction ms as [|[name svc] ms IH]; intros done m ND.
  - simpl. now rewrite app_nil_r.
  - rewrite ask_models_cons. cbv zeta. simpl.
    simpl in ND.
    assert (Hfresh : ~ In name (keys done)).
    { intros Hin. apply NoDup_remove_2 in ND. apply ND.
      apply in_or_app. now left. }
    replace (dict_set done name (ask svc 0 question))
      with (done ++ [(name, ask svc 0 question)]).
    + rewrite IH.
      * now rewrite <- app_assoc.
      * rewrite keys_app, <- app_assoc. exact ND.
    + rewrite <- (app_nil_r done) at 2.
      now rewrite (dict_set_fresh _ _ _ _ Hfresh).
Qed.

(** The key set of the dictionary stays within the registry, and after a
    round it is the key set of the registry. *)
Lemma history_keys (p : nat) :
  forall i rs m,
    incl (keys rs) (keys (models self)) ->
    Forall (fun rd =>
              Forall2 (fun (c : call) (e : string * service) =>
                         asked c = fst e
                         /\ reply c = ask (snd e) (round_index rd)
                                          (prompt_sent c))
                      (calls rd) (models self)
              /\ forall k, In k (keys (after rd))
                           <-> In k (keys (models self)))
           (history (loop p i rs m)).
Proof.
  intros i rs m.
  apply (history_invariant
           (fun _ rs _ => incl (keys rs) (keys (models self)))).
  clear. intros i rs m Hincl.
  rewrite round_of_calls, round_of_index, round_of_after.
  assert (Hk : forall k,
             In k (keys (fst (fst (ask_all i (models self) rs m))))
             <-> In k (keys (models self))).
  { intros k. rewrite ask_models_keys. split; [|now right].
    intros [H|H]; [apply Hincl, H | exact H]. }
  split; [split; [apply ask_models_calls | exact Hk]|].
  intros k Hin. now apply Hk.
Qed.

(** The rounds of a run follow one another. *)
Lemma while_loop_chained (p : nat) :
  forall i rs m, chained i rs (history (loop p i rs m)).
Proof.
  induction p as [|p IH]; intros i rs m.
  - exact I.
  - rewrite while_loop_pass. cbv zeta.
    destruct (verdict (this_round i rs m)); simpl;
      rewrite round_of_index, round_of_before; repeat split.
    apply IH.
Qed.

(** What the run returns is computed from the last value of
    [merged_response] and the dictionary of the last round. *)
Lemma while_loop_returned (p : nat) :
  forall i rs m,
    (history (loop p i rs m) = []
     /\ returned (loop p i rs m) = final_answer m rs
     /\ candidate (loop p i rs m) = m)
    \/ exists pre rd,
         history (loop p i rs m) = pre ++ [rd]
         /\ returned (loop p i rs m)
            = final_answer (candidate (loop p i rs m)) (after rd).
Proof.
  induction p as [|p IH]; intros i rs m.
  - left. repeat split.
  - right. rewrite while_loop_pass. cbv zeta.
    destruct (verdict (this_round i rs m)); simpl.
    + exists [], (this_round i rs m). split; reflexivity.
    + destruct (IH (S i) (after (this_round i rs m))
                   (snd (fst (ask_all i (models self) rs m))))
        as [(Hh & Hr & Hc) | (pre & rd & Hh & Hr)].
      * exists [], (this_round i rs m). rewrite Hh, Hr, Hc.
        split; reflexivity.
      * exists (this_round i rs m :: pre), rd. rewrite Hh, Hr.
        split; reflexivity.
Qed.

(** *** Round 0 *)

Lemma round_0_after (m : option string) :
  NoDup (keys (models self)) ->
  after (this_round 0 [] m)
  = map (fun e => (fst e, ask (snd e) 0 question)) (models self).
Proof.
  intros ND. rewrite round_of_after.
  apply (ask_models_round_0 (models self) [] m). exact ND.
Qed.

Lemma round_0_keeps_merged (m : option string) :
  snd (fst (ask_all 0 (models self) [] m)) = m
  /\ Forall unstored (calls (this_round 0 [] m)).
Proof.
  rewrite round_of_calls. apply ask_models_unstored. reflexivity.
Qed.

(** After round 0 the fallback lookup finds the reply of the
    first-registered agent to the question. *)
Lemma round_0_fallback (k0 : string) (svc0 : service)
    (rest : dict service) :
  models self = (k0, svc0) :: rest ->
  NoDup (keys (models self)) ->
  final_answer None (after (this_round 0 [] None))
  = Return (response (ask svc0 0 question)).
Proof.
  intros Hms ND. rewrite (round_0_after None ND), Hms. reflexivity.
Qed.

Lemma get_consensus_unfold :
  get_consensus self question
  = loop (Z.to_nat (max_iterations self)) 0 [] None.
Proof. reflexivity. Qed.

(** *** The prompts of a round *)

(** With unique keys, every round ends with one entry per agent in the
    order of the registry, and the [n]-th agent is asked with the prompt
    built from the replies of this round for the [n] agents before it and
    the entries the round began with for itself and the agents after it. *)
Lemma history_prompts (p : nat) :
  NoDup (keys (models self)) ->
  forall i rs m,
    (rs = [] \/ keys rs = keys (models self)) ->
    (1 <= i -> keys rs = keys (models self)) ->
    Forall (fun rd =>
              keys (after rd) = keys (models self)
              /\ (1 <= round_index rd ->
                  keys (before rd) = keys (models self))
              /\ forall (n : nat) (c : call),
                   nth_error (calls rd) n = Some c ->
                   prompt_sent c
                   = prompt_for (round_index rd)
                       (firstn n (after rd) ++ skipn n (before rd))
                   /\ nth_error (after rd) n = Some (asked c, reply c))
           (history (loop p i rs m)).
Proof.
  intros ND i rs m H0 H1.
  apply (history_invariant
           (fun i rs _ => (rs = [] \/ keys rs = keys (models self))
                          /\ (1 <= i -> keys rs = keys (models self))));
    [|split; assumption].
  clear i rs m H0 H1. intros i rs m [H0 H1].
  rewrite round_of_calls, round_of_index, round_of_after, round_of_before.
  destruct (ask_models_shape i (models self) [] rs m ND H0)
    as (new & Hrs & Hkeys & Hcalls).
  simpl in Hrs, Hcalls. rewrite Hrs.
  split; [|split; [now right | intros _; exact Hkeys]].
  split; [exact Hkeys|]. split; [exact H1|].
  intros n c Hc. destruct (Hcalls n c Hc) as (Hp & Hn & _).
  split; assumption.
Qed.

(** *** The shape of a run *)

(** With unique keys a run either makes at most one pass and never assigns
    [merged_response], or makes the passes 0 and 1, assigns
    [merged_response] once, after the first request of pass 1, and keeps
    that value to the end. *)
Lemma get_consensus_cases :
  NoDup (keys (models self)) ->
  (candidate (get_consensus self question) = None
   /\ List.length (history (get_consensus self question)) <= 1
   /\ Forall (fun rd => Forall unstored (calls rd))
             (history (get_consensus self question)))
  \/ exists (rd0 rd1 : round) (later : list round)
            (c0 : call) (cs : list call),
       history (get_consensus self question) = rd0 :: rd1 :: later
       /\ Forall unstored (calls rd0)
       /\ round_index rd1 = 1
       /\ calls rd1 = c0 :: cs
       /\ stored c0 = true
       /\ hd_error (keys (models self)) = Some (asked c0)
       /\ Forall unstored cs
       /\ Forall (fun rd => Forall unstored (calls rd)
                            /\ 2 <= round_index rd) later
       /\ candidate (get_consensus self question)
          = Some (response (reply c0)).
Proof.
  intros ND. rewrite get_consensus_unfold.
  destruct (round_0_keeps_merged None) as [Hm0 Hun0].
  destruct (Z.to_nat (max_iterations self)) as [|[|p]].
  - left. simpl. repeat split; [lia | constructor].
  - left. rewrite while_loop_pass. cbv zeta. rewrite Hm0.
    destruct (verdict (this_round 0 [] None)); simpl;
      repeat split; try lia; constructor; try exact Hun0; constructor.
  - rewrite while_loop_pass. cbv zeta. rewrite Hm0.
    destruct (verdict (this_round 0 [] None)) eqn:Hv0;
      cbn [history candidate].
    + left. simpl. repeat split; try lia.
      constructor; [exact Hun0 | constructor].
    + right.
      assert (Hne : exists k0 svc0 rest, models self = (k0, svc0) :: rest).
      { destruct (models self) as [|[k0 svc0] rest] eqn:Hms.
        - exfalso. rewrite round_of_verdict, (round_0_after None) in Hv0.
          + rewrite Hms in Hv0. discriminate Hv0.
          + rewrite Hms. constructor.
        - now exists k0, svc0, rest. }
      destruct Hne as (k0 & svc0 & rest & Hms).
      destruct (ask_models_first_stores k0 svc0 rest Hms ND
                  (after (this_round 0 [] None)) None)
        as (c0 & cs & Hcalls & Hasked & _ & _ & Hst & Hcs & Hm1).
      rewrite while_loop_pass. cbv zeta. rewrite Hm1.
      exists (this_round 0 [] None),
             (this_round 1 (after (this_round 0 [] None)) None).
      assert (Hhd : hd_error (keys (models self)) = Some (asked c0))
        by (rewrite Hms, Hasked; reflexivity).
      destruct (verdict (this_round 1 (after (this_round 0 [] None)) None));
        cbn [history candidate].
      * exists [], c0, cs.
        split; [reflexivity|]. split; [exact Hun0|].
        split; [apply round_of_index|].
        split; [rewrite round_of_calls; exact Hcalls|].
        split; [exact Hst|]. split; [exact Hhd|]. split; [exact Hcs|].
        split; [constructor | reflexivity].
      * destruct (while_loop_keeps_candidate p 2
                    (after (this_round 1 (after (this_round 0 [] None))
                                       None))
                    (Some (response (reply c0))) (le_n 2)) as [Hc Hlater].
        eexists; exists c0, cs.
        split; [reflexivity|]. split; [exact Hun0|].
        split; [apply round_of_index|].
        split; [rewrite round_of_calls; exact Hcalls|].
        split; [exact Hst|]. split; [exact Hhd|]. split; [exact Hcs|].
        split; [exact Hlater | exact Hc].
Qed.

(** *** Rounds with a dissenting agent *)



(** *** The guard of the loop *)

(** The passes of [loop p i] carry the indices from [i] up to, and not
    including, [i + p]. *)
Lemma history_indices (p : nat) :
  forall i rs m,
    Forall (fun rd => i <= round_index rd < i + p)
           (history (loop p i rs m)).
Proof.
  induction p as [|p IH]; intros i rs m.
  - constructor.
  - rewrite while_loop_pass. cbv zeta.
    destruct (verdict (this_round i rs m)); cbn [history];
      constructor; try constructor; try (rewrite round_of_index; lia).
    specialize (IH (S i) (after (this_round i rs m))
                   (snd (fst (ask_all i (models self) rs m)))).
    rewrite Forall_forall in IH |- *. intros rd Hrd.
    specialize (IH rd Hrd). lia.
Qed.

(** Every pass of a run was made under a true guard
    [iteration < self.max_iterations]. *)
Lemma history_guard :
  Forall (fun rd => (Z.of_nat (round_index rd) < max_iterations self)%Z)
         (history (get_consensus self question)).
Proof.
  rewrite get_consensus_unfold.
  pose proof (history_indices (Z.to_nat (max_iterations self)) 0 [] None)
    as H.
  rewrite Forall_forall in H |- *. intros rd Hrd.
  specialize (H rd Hrd). lia.
Qed.

End Round.

(** ** The run *)

(** When every request comes back with a string: in every round of every
    run, whatever the strings are, the requests go to the entries of the
    registry, one request per entry and in the order of the registry, each
    answered by the service registered there; and the keys of the
    dictionary the round ends with are the keys of the registry. *)
Theorem every_round_asks_every_agent :
  forall (self : LLMConsensus) (question : string),
    Forall (fun rd =>
              map asked (calls rd) = keys (models self)
              /\ Forall2 (fun (c : call) (e : string * service) =>
                            asked c = fst e
                            /\ reply c = ask (snd e) (round_index rd)
                                             (prompt_sent c))
                         (calls rd) (models self)
              /\ forall k, In k (keys (after rd))
                           <-> In k (keys (models self)))
           (history (get_consensus self question)).
Proof.
  intros self question. rewrite get_consensus_unfold.
  pose proof (history_keys self question
                (Z.to_nat (max_iterations self)) 0 [] None) as H.
  specialize (H (fun k (Hk : In k []) => match Hk with end)).
  rewrite Forall_forall in H |- *. intros rd Hrd.
  destruct (H rd Hrd) as [Hcalls Hkeys].
  split; [|split; assumption].
  clear - Hcalls. unfold keys.
  induction Hcalls as [|c e cs ms [Hc _] _ IH]; simpl.
  - reflexivity.
  - now rewrite Hc, IH.
Qed.

(** C1, as stated, fails: the consensus check also runs after round 0, so
    agents that always agree end the run there. With the three sample
    agents the run has one round, not two. *)
Lemma agreeing_agents_do_not_reach_round_1 :
  ~ (forall (self : LLMConsensus) (question : string),
        (forall k svc, In (k, svc) (models self) -> always_agrees svc) ->
        List.length (history (get_consensus self question)) = 2).
Proof.
  intros H.
  specialize (H Samples.all_agree_core "What is a monad?"%string).
  assert (Hlen : List.length
                   (history (get_consensus Samples.all_agree_core
                               "What is a monad?"%string)) = 1)
    by (vm_compute; reflexivity).
  rewrite Hlen in H.
  assert (Hagree : forall tag, tag = "chatgpt"%string \/ tag = "gemini"%string
                               \/ tag = "claude"%string ->
                               always_agrees (Samples.agreeing tag)).
  { intros tag Htag n prompt.
    destruct Htag as [-> | [-> | ->]];
      destruct n as [|[|n]]; vm_compute; reflexivity. }
  discriminate H.
  intros k svc [E | [E | [E | []]]]; inversion E; subst; apply Hagree; auto.
Qed.

(** C1, amended: for every question, every bound of at least one pass and
    every non-empty registry whose agents always agree, the consensus check
    of round 0 succeeds and ends the run: the history has that one round,
    every agent was asked the question itself, nothing was stored in
    [merged_response], and the value returned is the text of the
    first-registered agent's reply of round 0. *)
Theorem agreeing_agents_stop_at_round_0 :
  forall (self : LLMConsensus) (question : string)
         (k0 : string) (svc0 : service) (rest : dict service),
    models self = (k0, svc0) :: rest ->
    NoDup (keys (models self)) ->
    (0 < max_iterations self)%Z ->
    (forall k svc, In (k, svc) (models self) -> always_agrees svc) ->
    let out := get_consensus self question in
    exists rd : round,
      history out = [rd]
      /\ round_index rd = 0
      /\ verdict rd = true
      /\ Forall (fun c => prompt_sent c = question) (calls rd)
      /\ candidate out = None
      /\ returned out = Return (response (ask svc0 0 question)).
Proof.
  intros self question k0 svc0 rest Hms ND Hmax Hall out.
  subst out. rewrite get_consensus_unfold.
  destruct (Z.to_nat (max_iterations self)) as [|p] eqn:Ep; [lia|].
  rewrite while_loop_pass. cbv zeta.
  destruct (round_0_keeps_merged self question None) as [Hm _].
  assert (Hv : verdict (round_of self question 0 [] None) = true).
  { rewrite round_of_verdict, round_of_after.
    apply ask_models_all_agree; [|reflexivity].
    intros k svc Hin. apply (Hall k svc Hin). }
  rewrite Hv, Hm. simpl.
  exists (round_of self question 0 [] None).
  repeat split.
  - apply round_of_index.
  - exact Hv.
  - rewrite round_of_calls. apply ask_models_round_0_prompts.
  - apply (round_0_fallback self question k0 svc0 rest Hms ND).
Qed.

(** *** The sample services *)

Lemma agreeing_always_agrees (tag : string) :
  always_agrees (Samples.agreeing tag).
Proof.
  intros n prompt. unfold ask, Samples.agreeing, Samples.two_parts.
  destruct n as [|[|n]];
    now rewrite (parse_reply_two_parts "True" _ eq_refl).
Qed.


Lemma default_registry_keys_nodup (chatgpt gemini claude : service) :
  NoDup (keys (default_registry chatgpt gemini claude)).
Proof.
  simpl. repeat constructor; simpl; intuition discriminate.
Qed.

Lemma agreeing_agents_stop_at_round_0_on_samples :
  exists rd : round,
    history (get_consensus Samples.all_agree_core "Why is the sky blue?")
    = [rd]
    /\ round_index rd = 0
    /\ verdict rd = true
    /\ Forall (fun c => prompt_sent c = "Why is the sky blue?"%string)
              (calls rd)
    /\ candidate (get_consensus Samples.all_agree_core
                    "Why is the sky blue?") = None
    /\ returned (get_consensus Samples.all_agree_core
                   "Why is the sky blue?")
       = Return "chatgpt initial"%string.
Proof.
  apply (agreeing_agents_stop_at_round_0
           Samples.all_agree_core "Why is the sky blue?"
           "ChatGPT" (Samples.agreeing "chatgpt")
           [("Gemini"%string, Samples.agreeing "gemini");
            ("Claude"%string, Samples.agreeing "claude")]).
  - reflexivity.
  - apply default_registry_keys_nodup.
  - reflexivity.
  - intros k svc [E | [E | [E | []]]]; inversion E; subst;
      apply agreeing_always_agrees.
Defined.

(** C8: with [max_iterations = 1] and an agent that disagrees in round 0,
    the run has exactly one round, of index 0, whose consensus check fails;
    every request carried the question itself, so no merge prompt was
    built; [merged_response] was never assigned; and the value returned is
    the text of the first-registered agent's reply of round 0. *)
Theorem single_pass_returns_first_reply :
  forall (self : LLMConsensus) (question : string)
         (k0 : string) (svc0 : service) (rest : dict service),
    models self = (k0, svc0) :: rest ->
    NoDup (keys (models self)) ->
    max_iterations self = 1%Z ->
    (exists k svc, In (k, svc) (models self)
                   /\ agrees (ask svc 0 question) = false) ->
    let out := get_consensus self question in
    exists rd : round,
      history out = [rd]
      /\ round_index rd = 0
      /\ verdict rd = false
      /\ Forall (fun c => prompt_sent c = question /\ unstored c) (calls rd)
      /\ candidate out = None
      /\ returned out = Return (response (ask svc0 0 question)).
Proof.
  intros self question k0 svc0 rest Hms ND Hmax (k & svc & Hin & Hno) out.
  subst out. rewrite get_consensus_unfold, Hmax.
  change (Z.to_nat 1) with 1.
  rewrite while_loop_pass. cbv zeta.
  destruct (round_0_keeps_merged self question None) as [Hm Hun].
  assert (Hv : verdict (round_of self question 0 [] None) = false).
  { rewrite round_of_verdict, (round_0_after self question None ND).
    apply check_consensus_false_iff.
    exists k, (ask svc 0 question). split; [|exact Hno].
    apply in_map_iff. now exists (k, svc). }
  rewrite Hv, Hm. simpl.
  exists (round_of self question 0 [] None).
  repeat split.
  - apply round_of_index.
  - exact Hv.
  - rewrite Forall_forall in Hun |- *. intros c Hc. split.
    + pose proof (ask_models_round_0_prompts self question
                    (models self) [] None) as Hq.
      rewrite Forall_forall in Hq. apply Hq.
      now rewrite <- round_of_calls.
    + now apply Hun.
  - apply (round_0_fallback self question k0 svc0 rest Hms ND).
Qed.

Lemma single_pass_returns_first_reply_on_samples :
  exists rd : round,
    history (get_consensus Samples.one_round_core "Why is the sky blue?")
    = [rd]
    /\ round_index rd = 0
    /\ verdict rd = false
    /\ Forall (fun c => prompt_sent c = "Why is the sky blue?"%string
                        /\ unstored c) (calls rd)
    /\ candidate (get_consensus Samples.one_round_core
                    "Why is the sky blue?") = None
    /\ returned (get_consensus Samples.one_round_core
                   "Why is the sky blue?")
       = Return "chatgpt initial"%string.
Proof.
  apply (single_pass_returns_first_reply
           Samples.one_round_core "Why is the sky blue?"
           "ChatGPT" (Samples.disagreeing "chatgpt")
           [("Gemini"%string, Samples.agreeing "gemini");
            ("Claude"%string, Samples.agreeing "claude")]).
  - reflexivity.
  - apply default_registry_keys_nodup.
  - reflexivity.
  - exists "ChatGPT"%string, (Samples.disagreeing "chatgpt").
    split; [now left | reflexivity].
Defined.

(** ** Configuration *)


Lemma no_agent_raises (self : LLMConsensus) (question : string) :
  models self = [] ->
  (0 < max_iterations self)%Z ->
  history (get_consensus self question)
  = [{| round_index := 0; before := []; calls := []; after := [];
        verdict := true |}]
  /\ returned (get_consensus self question) = Raise IndexError.
Proof.
  intros Hms Hmax. unfold get_consensus.
  destruct (Z.to_nat (max_iterations self)) as [|p] eqn:Ep; [lia|].
  simpl. rewrite Hms. simpl. split; reflexivity.
Qed.




(** C10: with at least one registered agent (and a bound that allows a
    pass, as the configured 5 does) the run has a last round, the
    dictionary indexed by the fallback lookup is the one that round ended
    with, it is not empty, and [get_consensus] returns a string. With no
    registered agent the empty dictionary passes the consensus check of
    round 0, the lookup is made on it, and [get_consensus] raises
    [IndexError] instead of returning. *)
Theorem first_response_lookup :
  forall (self : LLMConsensus) (question : string),
    (0 < max_iterations self)%Z ->
    let out := get_consensus self question in
    (models self <> [] ->
     exists (pre : list round) (rd : round) (answer : string),
       history out = pre ++ [rd]
       /\ after rd <> []
       /\ returned out = final_answer (candidate out) (after rd)
       /\ returned out = Return answer)
    /\ (models self = [] ->
        history out
        = [{| round_index := 0; before := []; calls := []; after := [];
              verdict := true |}]
        /\ _check_consensus [] = true
        /\ index0 (values ([] : dict ModelResponse)) = Raise IndexError
        /\ returned out = Raise IndexError).
Proof.
  intros self question Hmax out. split.
  - intros Hne.
    destruct (while_loop_returned self question
                (Z.to_nat (max_iterations self)) 0 [] None)
      as [(Hh & _) | (pre & rd & Hh & Hr)].
    + exfalso.
      destruct (Z.to_nat (max_iterations self)) as [|p] eqn:Ep; [lia|].
      rewrite while_loop_pass in Hh. cbv zeta in Hh.
      destruct (verdict (round_of self question 0 [] None));
        discriminate Hh.
    + assert (Hafter : after rd <> []).
      { pose proof (history_keys self question
                      (Z.to_nat (max_iterations self)) 0 [] None
                      (fun k (Hk : In k []) => match Hk with end)) as Hk.
        rewrite Forall_forall in Hk.
        assert (Hin : In rd (history (while_loop self question
                                        (Z.to_nat (max_iterations self))
                                        0 [] None))).
        { rewrite Hh. apply in_or_app. right. now left. }
        destruct (models self) as [|[k svc] ms] eqn:Ems; [now elim Hne|].
        intros Hnil.
        assert (Hk0 : In k (keys (after rd))).
        { apply (Hk rd Hin). now left. }
        rewrite Hnil in Hk0. exact Hk0. }
      assert (Hret : returned out = final_answer (candidate out) (after rd))
        by exact Hr.
      destruct (after rd) as [|[k r] tl] eqn:Ea; [now elim Hafter|].
      exists pre, rd.
      exists (match candidate out with
              | Some text => if PyStr.truthy text then text else response r
              | None => response r
              end).
      split; [exact Hh|]. split; [now rewrite Ea|].
      rewrite Ea. split; [exact Hret|].
      rewrite Hret. unfold final_answer. simpl.
      destruct (candidate out) as [text|]; [|reflexivity].
      destruct (PyStr.truthy text); reflexivity.
  - intros Hms.
    destruct (no_agent_raises self question Hms Hmax) as [Hh Hr].
    repeat split; assumption.
Qed.

Lemma first_response_lookup_on_samples :
  (exists (pre : list round) (rd : round) (answer : string),
      history (get_consensus Samples.none_agree_core "Why is the sky blue?")
      = pre ++ [rd]
      /\ after rd <> []
      /\ returned (get_consensus Samples.none_agree_core
                     "Why is the sky blue?")
         = final_answer
             (candidate (get_consensus Samples.none_agree_core
                           "Why is the sky blue?"))
             (after rd)
      /\ returned (get_consensus Samples.none_agree_core
                     "Why is the sky blue?")
         = Return answer)
  /\ returned (get_consensus Samples.no_agent_core "Why is the sky blue?")
     = Raise IndexError.
Proof.
  split.
  - apply (proj1 (first_response_lookup Samples.none_agree_core
                    "Why is the sky blue?" eq_refl)).
    discriminate.
  - apply (proj2 (first_response_lookup Samples.no_agent_core
                    "Why is the sky blue?" eq_refl)).
    reflexivity.
Defined.

(** ** Prompts *)

(** C2, as stated, fails: [responses] is one dictionary updated in place
    after every request, so an agent asked later in a round is shown what
    the agents asked before it have just replied. In the merge round of the
    three disagreeing sample agents the second request does not carry the
    prompt built from the dictionary the round began with. *)
Lemma later_agents_see_replies_of_the_round :
  ~ (forall (self : LLMConsensus) (question : string)
            (rd : round) (c : call),
        NoDup (keys (models self)) ->
        In rd (history (get_consensus self question)) ->
        1 <= round_index rd ->
        In c (calls rd) ->
        prompt_sent c = select_prompt question (round_index rd) (before rd)).
Proof.
  intros H.
  set (out := get_consensus Samples.none_agree_core "Why is the sky blue?").
  destruct (nth_error (history out) 1) as [rd|] eqn:Erd;
    [|vm_compute in Erd; discriminate Erd].
  destruct (nth_error (calls rd) 1) as [c|] eqn:Ec;
    [|vm_compute in Erd; injection Erd as <-;
      vm_compute in Ec; discriminate Ec].
  specialize (H Samples.none_agree_core "Why is the sky blue?"%string rd c
                (default_registry_keys_nodup _ _ _)
                (nth_error_In _ _ Erd)).
  vm_compute in Erd. injection Erd as <-.
  vm_compute in Ec. injection Ec as <-.
  specialize (H (le_n 1) (or_intror (or_introl eq_refl))).
  apply (f_equal (fun s => String.eqb s
                   (select_prompt "Why is the sky blue?" 1
                      [("ChatGPT"%string,
                        {| agrees := false;
                           response := "chatgpt initial" |});
                       ("Gemini"%string,
                        {| agrees := false;
                           response := "gemini initial" |});
                       ("Claude"%string,
                        {| agrees := false;
                           response := "claude initial" |})]))) in H.
  vm_compute in H. discriminate H.
Qed.

(** C2, amended: in every run (keys being unique, as in any [dict]) the
    rounds follow one another, each starting with the dictionary the round
    before it ended with; every round ends with one entry per registered
    agent. The prompt of the [n]-th request of a round is built from the
    shared dictionary as it is at that moment: the replies given in this
    very round by the [n] agents asked before, followed by the entries the
    round began with for the agent asked and those after it. Only the first
    request of a round is built from the previous round's result alone. *)
Theorem prompts_follow_the_shared_dictionary :
  forall (self : LLMConsensus) (question : string),
    NoDup (keys (models self)) ->
    let out := get_consensus self question in
    chained 0 [] (history out)
    /\ Forall (fun rd =>
                 keys (after rd) = keys (models self)
                 /\ (1 <= round_index rd ->
                     keys (before rd) = keys (models self))
                 /\ (forall (n : nat) (c : call),
                       nth_error (calls rd) n = Some c ->
                       prompt_sent c
                       = select_prompt question (round_index rd)
                           (firstn n (after rd) ++ skipn n (before rd))
                       /\ nth_error (after rd) n = Some (asked c, reply c))
                 /\ (forall c : call,
                       hd_error (calls rd) = Some c ->
                       prompt_sent c
                       = select_prompt question (round_index rd)
                           (before rd)))
              (history out).
Proof.
  intros self question ND out. subst out. rewrite get_consensus_unfold.
  split; [apply while_loop_chained|].
  pose proof (history_prompts self question
                (Z.to_nat (max_iterations self)) ND 0 [] None
                (or_introl eq_refl)) as H.
  specialize (H ltac:(lia)).
  rewrite Forall_forall in H |- *. intros rd Hrd.
  destruct (H rd Hrd) as (Hk & Hb & Hc).
  split; [exact Hk|]. split; [exact Hb|]. split; [exact Hc|].
  intros c Hhd.
  destruct (calls rd) as [|c0 cs] eqn:Ec; [discriminate Hhd|].
  simpl in Hhd. injection Hhd as ->.
  apply (Hc 0 c). reflexivity.
Qed.

Lemma prompts_follow_the_shared_dictionary_on_samples :
  chained 0 []
    (history (get_consensus Samples.none_agree_core "Why is the sky blue?"))
  /\ Forall (fun rd =>
               keys (after rd) = keys (models Samples.none_agree_core)
               /\ (1 <= round_index rd ->
                   keys (before rd) = keys (models Samples.none_agree_core))
               /\ (forall (n : nat) (c : call),
                     nth_error (calls rd) n = Some c ->
                     prompt_sent c
                     = select_prompt "Why is the sky blue?" (round_index rd)
                         (firstn n (after rd) ++ skipn n (before rd))
                     /\ nth_error (after rd) n = Some (asked c, reply c))
               /\ (forall c : call,
                     hd_error (calls rd) = Some c ->
                     prompt_sent c
                     = select_prompt "Why is the sky blue?" (round_index rd)
                         (before rd)))
            (history (get_consensus Samples.none_agree_core
                        "Why is the sky blue?")).
Proof.
  apply (prompts_follow_the_shared_dictionary
           Samples.none_agree_core "Why is the sky blue?").
  apply default_registry_keys_nodup.
Defined.

(** ** The candidate answer *)

Lemma filter_unstored (cs : list call) :
  Forall unstored cs -> filter stored cs = [].
Proof.
  induction 1 as [|c cs Hc _ IH]; simpl.
  - reflexivity.
  - unfold unstored in Hc. now rewrite Hc.
Qed.

Lemma flat_map_unstored (P : round -> Prop) (h : list round) :
  (forall rd, P rd -> Forall unstored (calls rd)) ->
  Forall P h -> filter stored (flat_map calls h) = [].
Proof.
  intros HP. induction 1 as [|rd h Hrd _ IH]; simpl.
  - reflexivity.
  - now rewrite filter_app, (filter_unstored _ (HP rd Hrd)), IH.
Qed.

Lemma unstored_not_stored (cs : list call) (c : call) :
  Forall unstored cs -> In c cs -> stored c = true -> False.
Proof.
  intros H Hin Hst. rewrite Forall_forall in H.
  specialize (H c Hin). unfold unstored in H. congruence.
Qed.

(** C3: in every run (keys being unique, as in any [dict])
    [merged_response] is assigned at most once; an assignment happens in the
    round of index 1, right after the first request of that round, which
    goes to the first-registered agent, and the value assigned, the text of
    that reply, is still the value of [merged_response] when the run ends;
    and [merged_response] is set at the end of the run exactly when the run
    made at least two passes. *)
Theorem candidate_is_assigned_once :
  forall (self : LLMConsensus) (question : string),
    NoDup (keys (models self)) ->
    let out := get_consensus self question in
    List.length (filter stored (all_calls out)) <= 1
    /\ (forall (rd : round) (c : call),
          In rd (history out) -> In c (calls rd) -> stored c = true ->
          round_index rd = 1
          /\ hd_error (calls rd) = Some c
          /\ hd_error (keys (models self)) = Some (asked c)
          /\ candidate out = Some (response (reply c)))
    /\ (candidate out <> None <-> 2 <= List.length (history out)).
Proof.
  intros self question ND out. subst out. unfold all_calls.
  destruct (get_consensus_cases self question ND)
    as [(Hc & Hlen & Hun)
       | (rd0 & rd1 & later & c0 & cs & Hh & Hun0 & Hidx & Hcalls & Hst
          & Hhd & Hcs & Hlater & Hc)].
  - split; [|split].
    + rewrite (flat_map_unstored _ _ (fun rd H => H) Hun). simpl. lia.
    + intros rd c Hrd Hin Hst. exfalso.
      rewrite Forall_forall in Hun.
      exact (unstored_not_stored _ _ (Hun rd Hrd) Hin Hst).
    + rewrite Hc. split; [congruence | lia].
  - rewrite Hh, Hc. split; [|split].
    + simpl. rewrite !filter_app, (filter_unstored _ Hun0), Hcalls. simpl.
      rewrite Hst, (filter_unstored _ Hcs).
      rewrite (flat_map_unstored _ _ (fun rd H => proj1 H) Hlater).
      simpl. lia.
    + intros rd c [<- | [<- | Hrd]] Hin Hstc.
      * exfalso. exact (unstored_not_stored _ _ Hun0 Hin Hstc).
      * rewrite Hcalls in Hin |- *. destruct Hin as [<- | Hin].
        -- repeat split; assumption.
        -- exfalso. exact (unstored_not_stored _ _ Hcs Hin Hstc).
      * exfalso. rewrite Forall_forall in Hlater.
        exact (unstored_not_stored _ _ (proj1 (Hlater rd Hrd)) Hin Hstc).
    + simpl. split; [lia | congruence].
Qed.

Lemma candidate_is_assigned_once_on_samples :
  List.length
    (filter stored
       (all_calls (get_consensus Samples.none_agree_core
                     "Why is the sky blue?"))) <= 1
  /\ (forall (rd : round) (c : call),
        In rd (history (get_consensus Samples.none_agree_core
                          "Why is the sky blue?")) ->
        In c (calls rd) -> stored c = true ->
        round_index rd = 1
        /\ hd_error (calls rd) = Some c
        /\ hd_error (keys (models Samples.none_agree_core))
           = Some (asked c)
        /\ candidate (get_consensus Samples.none_agree_core
                        "Why is the sky blue?")
           = Some (response (reply c)))
  /\ (candidate (get_consensus Samples.none_agree_core
                   "Why is the sky blue?") <> None
      <-> 2 <= List.length
                 (history (get_consensus Samples.none_agree_core
                             "Why is the sky blue?"))).
Proof.
  apply (candidate_is_assigned_once
           Samples.none_agree_core "Why is the sky blue?").
  apply default_registry_keys_nodup.
Defined.

(** ** Runs that never reach consensus *)


Lemma terse_always_disagrees : always_disagrees Samples.terse.
Proof.
  intros n prompt. unfold ask, Samples.terse, Samples.two_parts.
  destruct n as [|[|n]];
    now rewrite (parse_reply_two_parts "False" _ eq_refl).
Qed.

(** C5 on a failing input. The first-registered agent always disagrees and
    sends nothing after the first line in the merge round. The run makes
    the five passes and [merged_response] is assigned in pass 1, to the
    empty text; the return statement tests it for truth, finds it false
    and returns the first agent's reply of the last pass instead of the
    candidate stored in pass 1. *)
Theorem empty_candidate_is_not_returned :
  always_disagrees Samples.terse
  /\ In ("ChatGPT"%string, Samples.terse) (models Samples.terse_core)
  /\ max_iterations Samples.terse_core = 5%Z
  /\ List.length
       (history (get_consensus Samples.terse_core "Why is the sky blue?"))
     = 5
  /\ candidate (get_consensus Samples.terse_core "Why is the sky blue?")
     = Some ""%string
  /\ returned (get_consensus Samples.terse_core "Why is the sky blue?")
     = Return "a longer answer"%string.
Proof.
  split; [exact terse_always_disagrees|].
  split; [now left|].
  repeat split; vm_compute; reflexivity.
Qed.

(** ** The core the source builds *)

(** The registry and the bound written in the constructor meet what the
    properties above ask of a core: three agents under three different
    names and a bound that allows five passes. *)
Lemma default_core_is_well_configured (chatgpt gemini claude : service) :
  exists self : LLMConsensus,
    default_core chatgpt gemini claude = Return self
    /\ keys (models self) = ["ChatGPT"; "Gemini"; "Claude"]%string
    /\ NoDup (keys (models self))
    /\ models self <> []
    /\ max_iterations self = 5%Z.
Proof.
  eexists. split; [reflexivity|]. simpl.
  split; [reflexivity|].
  split; [apply (default_registry_keys_nodup chatgpt gemini claude)|].
  split; [discriminate | reflexivity].
Qed.

(** * Further properties *)

(** ** White space at the ends of a reply *)

Section Strip.

Import PyStr.

Lemma lstrip_spec (s : string) :
  exists pre : string,
    s = (pre ++ lstrip s)%string
    /\ all_space pre = true
    /\ starts_with_space (lstrip s) = false.
Proof.
  induction s as [|c s (pre & Hs & Hpre & Hstart)]; simpl.
  - exists EmptyString. repeat split.
  - destruct (isspace c) eqn:Ec.
    + exists (String c pre). simpl. rewrite Ec, Hpre, <- Hs. repeat split.
      exact Hstart.
    + exists EmptyString. simpl. repeat split. exact Ec.
Qed.

Lemma rstrip_spec (s : string) :
  exists post : string,
    s = (rstrip s ++ post)%string
    /\ all_space post = true
    /\ ends_with_space (rstrip s) = false
    /\ (starts_with_space s = false -> starts_with_space (rstrip s) = false).
Proof.
  induction s as [|c s (post & Hs & Hpost & Hend & _)].
  - exists EmptyString. repeat split.
  - simpl. destruct (rstrip s) as [|d t] eqn:Er.
    + simpl in Hs. subst post. destruct (isspace c) eqn:Ec.
      * exists (String c s). simpl. rewrite Ec, Hpost. repeat split.
      * exists s. simpl. rewrite Ec. repeat split. exact Hpost.
    + exists post. rewrite Hs at 1.
      split; [reflexivity|]. split; [exact Hpost|].
      split; [exact Hend|]. intros H. exact H.
Qed.

(** [strip] removes white space from both ends and nothing else. *)
Lemma strip_spec (s : string) :
  exists pre post : string,
    s = (pre ++ strip s ++ post)%string
    /\ all_space pre = true
    /\ all_space post = true
    /\ starts_with_space (strip s) = false
    /\ ends_with_space (strip s) = false.
Proof.
  unfold strip.
  destruct (lstrip_spec s) as (pre & Hs & Hpre & Hstart).
  destruct (rstrip_spec (lstrip s)) as (post & Hl & Hpost & Hend & Hkeep).
  exists pre, post. rewrite <- Hl, <- Hs. repeat split; auto.
Qed.

End Strip.

(** X1: when a reply has a line break, the text kept is the remainder
    after the first line break less a run of white space at its start and a
    run of white space at its end, and the text kept neither starts nor
    ends with white space; line breaks and spaces inside it are kept. *)
Theorem reply_text_is_the_trimmed_remainder :
  forall head rest : string,
    PyStr.has_newline head = false ->
    exists pre post : string,
      rest = (pre ++ response (parse_reply (head ++ PyStr.nl ++ rest))
                  ++ post)%string
      /\ all_space pre = true
      /\ all_space post = true
      /\ starts_with_space
           (response (parse_reply (head ++ PyStr.nl ++ rest))) = false
      /\ ends_with_space
           (response (parse_reply (head ++ PyStr.nl ++ rest))) = false.
Proof.
  intros head rest Hhead.
  rewrite (parse_reply_two_parts head rest Hhead). simpl.
  apply strip_spec.
Qed.

Lemma reply_text_is_the_trimmed_remainder_on_samples :
  exists pre post : string,
    ("  two" ++ PyStr.nl ++ "lines " ++ PyStr.nl)%string
    = (pre ++ response
                (parse_reply ("True" ++ PyStr.nl ++ "  two" ++ PyStr.nl
                              ++ "lines " ++ PyStr.nl))
           ++ post)%string
    /\ all_space pre = true
    /\ all_space post = true
    /\ starts_with_space
         (response
            (parse_reply ("True" ++ PyStr.nl ++ "  two" ++ PyStr.nl
                          ++ "lines " ++ PyStr.nl))) = false
    /\ ends_with_space
         (response
            (parse_reply ("True" ++ PyStr.nl ++ "  two" ++ PyStr.nl
                          ++ "lines " ++ PyStr.nl))) = false.
Proof.
  apply (reply_text_is_the_trimmed_remainder
           "True" ("  two" ++ PyStr.nl ++ "lines " ++ PyStr.nl)%string).
  reflexivity.
Defined.

(** ** Which first lines count as agreement *)

Section Spelling.

Import PyStr.

Local Ltac by_code_point c :=
  destruct c as [[] [] [] [] [] [] [] []]; reflexivity.

Lemma lower_char_t (c : ascii) :
  Ascii.eqb (lower_char c) "t" = either_case "t" "T" c.
Proof. by_code_point c. Qed.

Lemma lower_char_r (c : ascii) :
  Ascii.eqb (lower_char c) "r" = either_case "r" "R" c.
Proof. by_code_point c. Qed.

Lemma lower_char_u (c : ascii) :
  Ascii.eqb (lower_char c) "u" = either_case "u" "U" c.
Proof. by_code_point c. Qed.

Lemma lower_char_e (c : ascii) :
  Ascii.eqb (lower_char c) "e" = either_case "e" "E" c.
Proof. by_code_point c. Qed.

Lemma lower_is_true (s : string) :
  String.eqb (lower s) "true" = spells_true s.
Proof.
  destruct s as [|c1 [|c2 [|c3 [|c4 [|c5 s]]]]];
    cbn [lower String.eqb spells_true];
    rewrite ?lower_char_t, ?lower_char_r, ?lower_char_u, ?lower_char_e;
    repeat match goal with
           | |- context [either_case ?a ?b ?c] =>
               destruct (either_case a b c)
           end;
    reflexivity.
Qed.

Lemma first_line_spec (content : string) :
  has_newline (first_line content) = false
  /\ (content = first_line content
      \/ exists rest : string,
           content = (first_line content ++ nl ++ rest)%string).
Proof.
  unfold first_line.
  induction content as [|c s [IHn IHs]]; simpl.
  - split; [reflexivity | now left].
  - destruct (Ascii.eqb c LF) eqn:Ec.
    + apply Ascii.eqb_eq in Ec. subst c. simpl.
      split; [reflexivity | right; now exists s].
    + destruct (cut s) as [h r]. simpl in *. rewrite Ec, IHn.
      split; [reflexivity|].
      destruct IHs as [E | [rest E]].
      * left. now rewrite <- E.
      * right. exists rest. now rewrite E at 1.
Qed.

End Spelling.

(** X2: a reply counts as agreement exactly when its first line (the raw
    output up to the first line break, or all of it when there is none),
    with the white space at its ends removed, is one of the sixteen
    spellings of [true] in letters of either case. *)
Theorem agreement_is_a_spelling_of_true :
  forall content : string,
    agrees (parse_reply content)
    = spells_true (PyStr.strip (first_line content))
    /\ PyStr.has_newline (first_line content) = false
    /\ (content = first_line content
        \/ exists rest : string,
             content = (first_line content ++ PyStr.nl ++ rest)%string).
Proof.
  intros content. split; [|apply first_line_spec].
  unfold parse_reply, parse_body, PyStr.split1, first_line.
  destruct (PyStr.cut content) as [h [r|]]; simpl; apply lower_is_true.
Qed.

(** ** What a prompt shows *)

Lemma string_app_assoc (a b c : string) :
  ((a ++ b) ++ c)%string = (a ++ (b ++ c))%string.
Proof.
  induction a as [|x a IH]; simpl; [reflexivity | now rewrite IH].
Qed.

Lemma list_responses_app (d1 d2 : dict ModelResponse) :
  list_responses (d1 ++ d2)
  = (list_responses d1 ++ list_responses d2)%string.
Proof.
  induction d1 as [|[model resp] d1 IH].
  - reflexivity.
  - cbn [list_responses app]. rewrite IH, !string_app_assoc. reflexivity.
Qed.

Lemma list_responses_texts (d1 d2 : dict ModelResponse) :
  map (fun e => (fst e, response (snd e))) d1
  = map (fun e => (fst e, response (snd e))) d2 ->
  list_responses d1 = list_responses d2.
Proof.
  revert d2.
  induction d1 as [|[k1 r1] d1 IH]; intros [|[k2 r2] d2] H;
    try discriminate H.
  - reflexivity.
  - simpl in H. injection H as Hk Hr Hrest.
    simpl. now rewrite Hk, Hr, (IH d2 Hrest).
Qed.

(** X3: the merge prompt and the feedback prompt are functions of the
    agent names and the response texts alone: two dictionaries with the
    same names and the same texts in the same order give the same merge
    prompt and the same feedback prompt, whatever their [agrees] flags
    are. *)
Theorem prompts_do_not_show_the_votes :
  forall (question : string) (d1 d2 : dict ModelResponse),
    map (fun e => (fst e, response (snd e))) d1
    = map (fun e => (fst e, response (snd e))) d2 ->
    _create_merge_prompt question d1 = _create_merge_prompt question d2
    /\ _create_feedback_prompt question d1
       = _create_feedback_prompt question d2.
Proof.
  intros question d1 d2 H.
  unfold _create_merge_prompt, _create_feedback_prompt, prompt_header.
  now rewrite (list_responses_texts d1 d2 H).
Qed.

Lemma prompts_do_not_show_the_votes_on_samples :
  _create_merge_prompt "Why is the sky blue?"
    [("ChatGPT"%string, {| agrees := true; response := "Scattering." |});
     ("Gemini"%string, {| agrees := false; response := "Rayleigh." |})]
  = _create_merge_prompt "Why is the sky blue?"
      [("ChatGPT"%string, {| agrees := false; response := "Scattering." |});
       ("Gemini"%string, {| agrees := true; response := "Rayleigh." |})]
  /\ _create_feedback_prompt "Why is the sky blue?"
       [("ChatGPT"%string, {| agrees := true; response := "Scattering." |});
        ("Gemini"%string, {| agrees := false; response := "Rayleigh." |})]
     = _create_feedback_prompt "Why is the sky blue?"
         [("ChatGPT"%string,
           {| agrees := false; response := "Scattering." |});
          ("Gemini"%string, {| agrees := true; response := "Rayleigh." |})].
Proof.
  apply (prompts_do_not_show_the_votes "Why is the sky blue?").
  reflexivity.
Defined.

(** X4: both prompts are laid out alike and differ in their closing
    instructions only. After the question and the heading comes one
    paragraph per response, in the order of the dictionary, made of the
    agent name, a colon, a line break, the whole response text and an empty
    line; nothing of a response text is left out or altered. *)
Theorem prompts_list_every_response_in_order :
  forall (question : string) (earlier later : dict ModelResponse)
         (model : string) (resp : ModelResponse),
    let shown :=
      ("Original question: " ++ question ++ PyStr.nl ++ PyStr.nl
       ++ "Here are the responses from other AI models:"
       ++ PyStr.nl ++ PyStr.nl
       ++ list_responses earlier
       ++ (model ++ ":" ++ PyStr.nl ++ response resp
           ++ PyStr.nl ++ PyStr.nl)
       ++ list_responses later)%string in
    _create_merge_prompt question (earlier ++ (model, resp) :: later)
    = (shown ++ merge_instructions)%string
    /\ _create_feedback_prompt question (earlier ++ (model, resp) :: later)
       = (shown ++ feedback_instructions)%string.
Proof.
  intros question earlier later model resp shown. subst shown.
  unfold _create_merge_prompt, _create_feedback_prompt, prompt_header.
  rewrite list_responses_app.
  change (list_responses ((model, resp) :: later))
    with (model ++ ":" ++ PyStr.nl ++ response resp ++ PyStr.nl ++ PyStr.nl
          ++ list_responses later)%string.
  split; rewrite !string_app_assoc; reflexivity.
Qed.

(** ** How much a run costs *)


Lemma history_calls_length (self : LLMConsensus) (question : string) :
  Forall (fun rd => List.length (calls rd) = List.length (models self))
         (history (get_consensus self question)).
Proof.
  rewrite get_consensus_unfold.
  pose proof (history_keys self question
                (Z.to_nat (max_iterations self)) 0 [] None
                (fun k (Hk : In k []) => match Hk with end)) as H.
  rewrite Forall_forall in H |- *. intros rd Hrd.
  destruct (H rd Hrd) as [Hcalls _].
  clear - Hcalls. induction Hcalls; simpl; congruence.
Qed.


(** ** When a run stops *)

Section Stop.

Variable self : LLMConsensus.
Variable question : string.

Lemma while_loop_stops (p : nat) :
  forall i rs m,
    Forall (fun rd => verdict rd = false)
           (removelast (history (while_loop self question p i rs m)))
    /\ (List.length (history (while_loop self question p i rs m)) < p ->
        exists pre rd,
          history (while_loop self question p i rs m) = pre ++ [rd]
          /\ verdict rd = true)
    /\ (0 < p -> history (while_loop self question p i rs m) <> []).
Proof.
  induction p as [|p IH]; intros i rs m.
  - simpl. repeat split; try constructor; lia.
  - rewrite while_loop_pass. cbv zeta.
    destruct (verdict (round_of self question i rs m)) eqn:Hv;
      cbn [history].
    + split; [constructor|]. split; [|discriminate].
      intros _. exists [], (round_of self question i rs m).
      split; [reflexivity | exact Hv].
    + destruct (IH (S i) (after (round_of self question i rs m))
                   (snd (fst (ask_models self question i (models self)
                                rs m))))
        as (Hfalse & Hshort & _).
      split; [|split; [|discriminate]].
      * destruct (history _) as [|rd' h'] eqn:Eh.
        -- constructor.
        -- change (removelast (round_of self question i rs m :: rd' :: h'))
             with (round_of self question i rs m :: removelast (rd' :: h')).
           constructor; assumption.
      * intros Hlt. simpl in Hlt.
        destruct Hshort as (pre & rd & Hh & Hrd); [lia|].
        exists (round_of self question i rs m :: pre), rd.
        rewrite Hh. split; [reflexivity | exact Hrd].
Qed.

Lemma history_verdicts (p : nat) :
  forall i rs m,
    Forall (fun rd => verdict rd = _check_consensus (after rd))
           (history (while_loop self question p i rs m)).
Proof.
  intros i rs m.
  apply (history_invariant self question (fun _ _ _ => True));
    [|exact I].
  intros i' rs' m' _. split; [apply round_of_verdict | exact I].
Qed.

End Stop.


(** ** What a round leaves in the dictionary *)

Lemma check_consensus_of_calls (cs : list call) :
  _check_consensus (map (fun c => (asked c, reply c)) cs)
  = forallb (fun c => agrees (reply c)) cs.
Proof.
  unfold _check_consensus, values.
  induction cs as [|c cs IH]; simpl; [reflexivity | now rewrite IH].
Qed.

Lemma history_replies (self : LLMConsensus) (question : string) :
  NoDup (keys (models self)) ->
  Forall (fun rd =>
            after rd = map (fun c => (asked c, reply c)) (calls rd)
            /\ verdict rd = forallb (fun c => agrees (reply c)) (calls rd))
         (history (get_consensus self question)).
Proof.
  intros ND.
  pose proof (history_calls_length self question) as Hlen.
  pose proof (history_verdicts self question
                (Z.to_nat (max_iterations self)) 0 [] None) as Hver.
  pose proof (history_prompts self question
                (Z.to_nat (max_iterations self)) ND 0 [] None
                (or_introl eq_refl)) as Hpr.
  specialize (Hpr ltac:(lia)).
  rewrite get_consensus_unfold in *.
  rewrite Forall_forall in *. intros rd Hrd.
  destruct (Hpr rd Hrd) as (Hkeys & _ & Hnth).
  assert (Hafter : after rd = map (fun c => (asked c, reply c)) (calls rd)).
  { apply nth_error_ext. intros n.
    destruct (nth_error (calls rd) n) as [c|] eqn:Ec.
    - rewrite (map_nth_error _ _ _ Ec). apply (Hnth n c Ec).
    - apply nth_error_None in Ec.
      assert (Hl : List.length (after rd) = List.length (calls rd)).
      { rewrite (Hlen rd Hrd). unfold keys in Hkeys.
        rewrite <- (length_map fst (after rd)), Hkeys. apply length_map. }
      transitivity (@None (string * ModelResponse)).
      + apply nth_error_None. lia.
      + symmetry. apply nth_error_None. rewrite length_map. lia. }
  split; [exact Hafter|].
  rewrite (Hver rd Hrd), Hafter. apply check_consensus_of_calls.
Qed.

(** X7: with unique agent names, the dictionary a round ends with holds
    the replies of that round and nothing else, one entry per request in
    the order of the requests, and the consensus check of the round is the
    conjunction of the [agrees] flags of these replies: no reply of an
    earlier round takes part in it. *)
Theorem consensus_is_about_the_round :
  forall (self : LLMConsensus) (question : string),
    NoDup (keys (models self)) ->
    Forall (fun rd =>
              after rd = map (fun c => (asked c, reply c)) (calls rd)
              /\ verdict rd
                 = forallb (fun c => agrees (reply c)) (calls rd))
           (history (get_consensus self question)).
Proof.
  intros self question ND. exact (history_replies self question ND).
Qed.

Lemma consensus_is_about_the_round_on_samples :
  Forall (fun rd =>
            after rd = map (fun c => (asked c, reply c)) (calls rd)
            /\ verdict rd
               = forallb (fun c => agrees (reply c)) (calls rd))
         (history (get_consensus Samples.terse_core
                     "Why is the sky blue?")).
Proof.
  apply (consensus_is_about_the_round
           Samples.terse_core "Why is the sky blue?").
  apply default_registry_keys_nodup.
Defined.

(** ** Which prompt goes out in which round *)



(** ** Whose text is returned *)

Lemma history_first_call (self : LLMConsensus) (question : string)
    (k0 : string) (svc0 : service) (rest : dict service) :
  models self = (k0, svc0) :: rest ->
  Forall (fun rd => exists c cs, calls rd = c :: cs /\ asked c = k0)
         (history (get_consensus self question)).
Proof.
  intros Hms. rewrite get_consensus_unfold.
  pose proof (history_keys self question
                (Z.to_nat (max_iterations self)) 0 [] None
                (fun k (Hk : In k []) => match Hk with end)) as H.
  rewrite Forall_forall in H |- *. intros rd Hrd.
  destruct (H rd Hrd) as [Hcalls _]. rewrite Hms in Hcalls.
  inversion Hcalls as [|c e cs ms [Hc _] _ Ecs Ems]; subst.
  now exists c, cs.
Qed.

(** X9: with at least one registered agent, unique names and a positive
    [max_iterations], what [get_consensus] returns is always the text of a
    reply of the first-registered agent, never of another agent. A run of
    one pass returns that agent's reply of the pass. A longer run returns
    that agent's reply of round 1 when it is not empty, whatever was said
    in later rounds and whether or not consensus was reached, and
    otherwise that agent's reply of the last round. *)
Theorem answer_is_a_reply_of_the_first_agent :
  forall (self : LLMConsensus) (question : string)
         (k0 : string) (svc0 : service) (rest : dict service),
    models self = (k0, svc0) :: rest ->
    NoDup (keys (models self)) ->
    (0 < max_iterations self)%Z ->
    let out := get_consensus self question in
    exists (pre : list round) (last : round) (c_last : call),
      history out = pre ++ [last]
      /\ hd_error (calls last) = Some c_last
      /\ asked c_last = k0
      /\ match nth_error (history out) 1 with
         | None => returned out = Return (response (reply c_last))
         | Some rd1 =>
             exists c1 : call,
               round_index rd1 = 1
               /\ hd_error (calls rd1) = Some c1
               /\ asked c1 = k0
               /\ returned out
                  = Return (if PyStr.truthy (response (reply c1))
                            then response (reply c1)
                            else response (reply c_last))
         end.
Proof.
  intros self question k0 svc0 rest Hms ND Hmax out. subst out.
  pose proof (history_first_call self question k0 svc0 rest Hms) as Hfirst.
  pose proof (history_replies self question ND) as Hrep.
  rewrite Forall_forall in Hfirst, Hrep.
  destruct (while_loop_returned self question
              (Z.to_nat (max_iterations self)) 0 [] None)
    as [(Hnil & _) | (pre & last & Hh & Hr)].
  { exfalso.
    destruct (while_loop_stops self question
                (Z.to_nat (max_iterations self)) 0 [] None)
      as (_ & _ & Hne).
    apply Hne; [lia | exact Hnil]. }
  fold (get_consensus self question) in Hh, Hr.
  assert (Hin : In last (history (get_consensus self question))).
  { rewrite Hh. apply in_or_app. right. now left. }
  destruct (Hfirst last Hin) as (c_last & cs & Hcalls & Hasked).
  destruct (Hrep last Hin) as [Hafter _].
  rewrite Hcalls in Hafter. simpl in Hafter.
  exists pre, last, c_last.
  split; [exact Hh|]. split; [now rewrite Hcalls|]. split; [exact Hasked|].
  destruct (get_consensus_cases self question ND)
    as [(Hc & Hlen & _)
       | (rd0 & rd1 & later & c1 & cs1 & Hh' & _ & Hidx & Hcalls1 & _
          & Hhd & _ & _ & Hc)].
  - destruct (history (get_consensus self question)) as [|r0 [|r1 h]];
      simpl in Hlen |- *; try lia;
      rewrite Hr, Hc, Hafter; reflexivity.
  - rewrite Hh'. simpl. exists c1.
    split; [exact Hidx|]. split; [now rewrite Hcalls1|].
    split; [rewrite Hms in Hhd; simpl in Hhd; congruence|].
    rewrite Hr, Hc, Hafter. unfold final_answer. simpl.
    destruct (PyStr.truthy (response (reply c1))); reflexivity.
Qed.

Lemma answer_is_a_reply_of_the_first_agent_on_samples :
  exists (pre : list round) (last : round) (c_last : call),
    history (get_consensus Samples.terse_core "Why is the sky blue?")
    = pre ++ [last]
    /\ hd_error (calls last) = Some c_last
    /\ asked c_last = "ChatGPT"%string
    /\ match nth_error
               (history (get_consensus Samples.terse_core
                           "Why is the sky blue?")) 1 with
       | None =>
           returned (get_consensus Samples.terse_core
                       "Why is the sky blue?")
           = Return (response (reply c_last))
       | Some rd1 =>
           exists c1 : call,
             round_index rd1 = 1
             /\ hd_error (calls rd1) = Some c1
             /\ asked c1 = "ChatGPT"%string
             /\ returned (get_consensus Samples.terse_core
                            "Why is the sky blue?")
                = Return (if PyStr.truthy (response (reply c1))
                          then response (reply c1)
                          else response (reply c_last))
       end.
Proof.
  apply (answer_is_a_reply_of_the_first_agent
           Samples.terse_core "Why is the sky blue?"
           "ChatGPT" Samples.terse
           [("Gemini"%string, Samples.agreeing "gemini");
            ("Claude"%string, Samples.agreeing "claude")]).
  - reflexivity.
  - apply default_registry_keys_nodup.
  - reflexivity.
Defined.

(** ** Runs with a dissenting agent *)



(** ** The configuration of the source *)



(** ** Runs with gateways that can fail *)

Section WireRun.

Variable self : Wire.LLMConsensus.
Variable question : string.

Lemma wire_parse_content_text (text : string) :
  Wire.parse_content (Some text)
  = {| Wire.g_agrees := agrees (parse_reply text);
       Wire.g_response := Some (response (parse_reply text)) |}.
Proof.
  unfold Wire.parse_content, Wire.parse_content_body.
  now rewrite parse_body_returns.
Qed.

Lemma wire_parse_content_none :
  Wire.parse_content None
  = {| Wire.g_agrees := false; Wire.g_response := None |}.
Proof. reflexivity. Qed.

Lemma texts_of_keys (ms : dict Wire.gateway) :
  keys (map (fun e => (fst e, text_of (snd e))) ms) = keys ms.
Proof.
  unfold keys. rewrite map_map. apply map_ext. reflexivity.
Qed.

Lemma wire_is_first_model (name : string) :
  Wire.is_first_model self name = is_first_model (texts_of self) name.
Proof.
  unfold Wire.is_first_model, is_first_model, texts_of. simpl.
  now rewrite texts_of_keys.
Qed.

(** A round of the gateways either is interrupted by a failure of a
    gateway, after a first few agents of the registry have been asked, or
    is the round of the strings the gateways answered with. *)
Lemma wire_ask_models (i : nat) (ms : dict Wire.gateway) :
  forall rs m,
    match Wire.ask_models self question i ms rs m with
    | Wire.Completed rs' m' cs =>
        ask_models (texts_of self) question i
          (map (fun e => (fst e, text_of (snd e))) ms) rs m
        = (rs', m', cs)
    | Wire.Aborted e names =>
        gateway_failure e
        /\ names <> []
        /\ exists rest, keys ms = names ++ rest
    end.
Proof.
  induction ms as [|[name g] ms IH]; intros rs m.
  - reflexivity.
  - cbn [Wire.ask_models map fst snd]. unfold Wire.ask.
    destruct (g i (select_prompt question i rs)) as [[text|]|what] eqn:Eg.
    + rewrite wire_parse_content_text. cbn [Wire.g_response Wire.g_agrees].
      assert (Er : {| agrees := agrees (parse_reply text);
                      response := response (parse_reply text) |}
                   = ask (text_of g) i (select_prompt question i rs)).
      { unfold ask, text_of. rewrite Eg. now destruct (parse_reply text). }
      assert (Et : response (parse_reply text)
                   = response (ask (text_of g) i
                                 (select_prompt question i rs))).
      { now rewrite <- Er. }
      rewrite Er, Et, wire_is_first_model.
      rewrite ask_models_cons. cbv zeta.
      specialize (IH (dict_set rs name
                        (ask (text_of g) i (select_prompt question i rs)))
                     (if Nat.eqb i 1 && is_first_model (texts_of self) name
                      then Some (response
                                   (ask (text_of g) i
                                      (select_prompt question i rs)))
                      else m)).
      destruct (Wire.ask_models self question i ms _ _)
        as [rs' m' cs | e names].
      * rewrite IH. reflexivity.
      * destruct IH as (He & _ & rest & Hrest).
        split; [exact He|]. split; [discriminate|].
        exists rest. simpl. now rewrite Hrest.
    + rewrite wire_parse_content_none. cbn [Wire.g_response].
      split; [now left|]. split; [discriminate|].
      now exists (keys ms).
    + split; [right; now exists what|]. split; [discriminate|].
      now exists (keys ms).
Qed.

(** A run of the gateways that is not interrupted is the run of the
    strings they answered with; an interrupted one went the same way up to
    the round that a gateway failure left. *)
Lemma wire_while_loop (p : nat) :
  forall i rs m,
    match Wire.interrupted (Wire.while_loop self question p i rs m) with
    | None =>
        Wire.returned (Wire.while_loop self question p i rs m)
        = returned (while_loop (texts_of self) question p i rs m)
        /\ Wire.history (Wire.while_loop self question p i rs m)
           = history (while_loop (texts_of self) question p i rs m)
        /\ Wire.candidate (Wire.while_loop self question p i rs m)
           = candidate (while_loop (texts_of self) question p i rs m)
    | Some (j, names) =>
        (exists e,
            Wire.returned (Wire.while_loop self question p i rs m)
            = Raise e
            /\ gateway_failure e)
        /\ (exists later,
               history (while_loop (texts_of self) question p i rs m)
               = Wire.history (Wire.while_loop self question p i rs m)
                 ++ later)
        /\ j = i + List.length
                     (Wire.history (Wire.while_loop self question p i rs m))
        /\ List.length
             (Wire.history (Wire.while_loop self question p i rs m)) < p
        /\ names <> []
        /\ exists rest, keys (Wire.models self) = names ++ rest
    end.
Proof.
  induction p as [|p IH]; intros i rs m.
  - simpl. repeat split.
  - cbn [Wire.while_loop]. rewrite while_loop_pass. cbv zeta.
    rewrite round_of_verdict, round_of_after.
    pose proof (wire_ask_models i (Wire.models self) rs m) as Hround.
    change (map (fun e => (fst e, text_of (snd e))) (Wire.models self))
      with (models (texts_of self)) in Hround.
    destruct (Wire.ask_models self question i (Wire.models self) rs m)
      as [rs' m' cs | e names].
    + assert (Hrd : round_of (texts_of self) question i rs m
                    = {| round_index := i; before := rs; calls := cs;
                         after := rs';
                         verdict := _check_consensus rs' |})
        by (rewrite round_of_eq, Hround; reflexivity).
      rewrite Hround. cbn [fst snd].
      destruct (_check_consensus rs') eqn:Hv.
      * cbn [Wire.interrupted Wire.returned Wire.history Wire.candidate
             returned history candidate].
        rewrite Hrd. repeat split.
      * cbn [Wire.interrupted Wire.returned Wire.history Wire.candidate
             returned history candidate].
        rewrite Hrd. specialize (IH (S i) rs' m').
        destruct (Wire.interrupted
                    (Wire.while_loop self question p (S i) rs' m'))
          as [[j names]|].
        -- destruct IH as (He & (later & Hl) & Hj & Hlen & Hn & Hrest).
           split; [exact He|].
           split; [exists later; now rewrite Hl|].
           cbn [List.length]. repeat split; try assumption; lia.
        -- destruct IH as (Hr & Hh & Hc). now rewrite Hr, Hh, Hc.
    + cbn [Wire.interrupted Wire.returned Wire.history].
      destruct Hround as (He & Hn & Hrest).
      split; [now exists e|].
      split; [eexists; reflexivity|].
      simpl. repeat split; try assumption; lia.
Qed.


End WireRun.

(** A service that always answers with a string is never interrupted, and
    its run as a gateway is its run as a service. *)
Lemma lifted_run (self : LLMConsensus) (question : string) :
  let wired := {| Wire.models := map (fun e => (fst e, lift (snd e)))
                                     (models self);
                  Wire.max_iterations := max_iterations self |} in
  Wire.interrupted (Wire.get_consensus wired question) = None
  /\ Wire.returned (Wire.get_consensus wired question)
     = returned (get_consensus self question)
  /\ Wire.history (Wire.get_consensus wired question)
     = history (get_consensus self question)
  /\ Wire.candidate (Wire.get_consensus wired question)
     = candidate (get_consensus self question).
Proof.
  intros wired.
  assert (Hself : texts_of wired = self).
  { unfold texts_of, wired. destruct self as [ms bound]. simpl.
    f_equal.
    induction ms as [|[k svc] ms IH]; simpl; [reflexivity|].
    rewrite IH. reflexivity. }
  assert (Hround : forall i ms rs m,
             exists rs' m' cs,
               Wire.ask_models wired question i
                 (map (fun e => (fst e, lift (snd e))) ms) rs m
               = Wire.Completed rs' m' cs).
  { intros i ms. induction ms as [|[k svc] ms IH]; intros rs m.
    - now exists rs, m, [].
    - cbn [Wire.ask_models map fst snd]. unfold Wire.ask, lift at 1.
      rewrite wire_parse_content_text. cbn [Wire.g_response].
      match goal with
      | |- context [Wire.ask_models wired question i _ ?r ?n] =>
          destruct (IH r n) as (rs' & m' & cs & E)
      end.
      rewrite E. eauto. }
  assert (Hloop : forall p i rs m,
             Wire.interrupted (Wire.while_loop wired question p i rs m)
             = None).
  { induction p as [|p IH]; intros i rs m; [reflexivity|].
    cbn [Wire.while_loop].
    destruct (Hround i (models self) rs m) as (rs' & m' & cs & E).
    change (Wire.models wired)
      with (map (fun e => (fst e, lift (snd e))) (models self)).
    rewrite E. destruct (_check_consensus rs'); [reflexivity|].
    apply IH. }
  pose proof (wire_while_loop wired question
                (Z.to_nat (max_iterations self)) 0 [] None) as H.
  unfold Wire.get_consensus.
  change (Wire.max_iterations wired) with (max_iterations self).
  rewrite Hloop in H |- *. rewrite Hself in H.
  split; [reflexivity | exact H].
Qed.

(** ** A reply without text *)

(** C7 on a failing input. ChatGPT, Gemini and Claude are registered and
    the first reply of Gemini has no text ([None]). The gateway's [except]
    branch turns it into a response that disagrees, with [None] for text;
    line 141 then slices that text and raises [TypeError]. Round 0 ends
    there: ChatGPT and Gemini were asked, Claude was not, no dictionary
    reached the consensus check, and the exception leaves
    [get_consensus]. *)
Theorem reply_without_text_aborts_the_round :
  keys (Wire.models Samples.silent_gemini_core)
  = ["ChatGPT"; "Gemini"; "Claude"]%string
  /\ Wire.ask Samples.silent 0 "Why is the sky blue?"
     = Return {| Wire.g_agrees := false; Wire.g_response := None |}
  /\ Wire.ask_models Samples.silent_gemini_core "Why is the sky blue?" 0
       (Wire.models Samples.silent_gemini_core) [] None
     = Wire.Aborted TypeError ["ChatGPT"; "Gemini"]%string
  /\ Wire.history
       (Wire.get_consensus Samples.silent_gemini_core
          "Why is the sky blue?") = []
  /\ Wire.interrupted
       (Wire.get_consensus Samples.silent_gemini_core
          "Why is the sky blue?")
     = Some (0, ["ChatGPT"; "Gemini"]%string)
  /\ Wire.returned
       (Wire.get_consensus Samples.silent_gemini_core
          "Why is the sky blue?")
     = Raise TypeError.
Proof.
  repeat split; vm_compute; reflexivity.
Qed.

(** ** The configuration of the source, with its gateways *)


(** ** The command line *)





(** X13: when one of the two required keys is unset or empty, [main]
    prints two lines, the first naming the missing keys in the order
    OPENAI_API_KEY_personal, GEMINI_API_KEY, and returns: it reads no
    input and calls [get_consensus] not once. *)
Theorem main_stops_without_keys :
  forall (getenv : Cli.environment) (services : Cli.backend)
         (stdin : list string) (key : string),
    In key Cli.required_keys ->
    Cli.unset getenv key = true ->
    In key (Cli.missing_keys getenv)
    /\ Cli.main getenv services stdin
       = ([Cli.Printed ("Error: Missing API keys for: "
                        ++ Cli.join ", " (Cli.missing_keys getenv));
           Cli.Printed
             "Please set these environment variables in a .env file"],
          Cli.Returned)
    /\ Cli.consulted (fst (Cli.main getenv services stdin)) = []
    /\ Cli.missing_keys getenv
       = (if Cli.unset getenv "OPENAI_API_KEY_personal"
          then ["OPENAI_API_KEY_personal"%string] else [])
         ++ (if Cli.unset getenv "GEMINI_API_KEY"
             then ["GEMINI_API_KEY"%string] else []).
Proof.
  intros getenv services stdin key Hin Hunset.
  assert (Hmiss : In key (Cli.missing_keys getenv))
    by (apply filter_In; split; assumption).
  assert (Hmain : Cli.main getenv services stdin
            = ([Cli.Printed ("Error: Missing API keys for: "
                             ++ Cli.join ", " (Cli.missing_keys getenv));
                Cli.Printed
                  "Please set these environment variables in a .env file"],
               Cli.Returned)).
  { unfold Cli.main.
    destruct (Cli.missing_keys getenv); [contradiction | reflexivity]. }
  split; [exact Hmiss|]. split; [exact Hmain|].
  split; [now rewrite Hmain|].
  unfold Cli.missing_keys, Cli.required_keys. simpl.
  destruct (Cli.unset getenv "OPENAI_API_KEY_personal");
    destruct (Cli.unset getenv "GEMINI_API_KEY"); reflexivity.
Qed.

Lemma main_stops_without_keys_on_samples :
  In "GEMINI_API_KEY"%string
     (Cli.missing_keys
        (fun key => if String.eqb key "GEMINI_API_KEY"
                    then Some ""%string else Some "secret"%string))
  /\ Cli.main
       (fun key => if String.eqb key "GEMINI_API_KEY"
                   then Some ""%string else Some "secret"%string)
       (fun _ _ => (lift (Samples.agreeing "chatgpt"),
                    lift (Samples.agreeing "gemini"),
                    lift (Samples.agreeing "claude")))
       ["Why is the sky blue?"%string]
     = ([Cli.Printed
           ("Error: Missing API keys for: "
            ++ Cli.join ", "
                 (Cli.missing_keys
                    (fun key => if String.eqb key "GEMINI_API_KEY"
                                then Some ""%string
                                else Some "secret"%string)));
         Cli.Printed
           "Please set these environment variables in a .env file"],
        Cli.Returned)
  /\ Cli.consulted
       (fst (Cli.main
               (fun key => if String.eqb key "GEMINI_API_KEY"
                           then Some ""%string else Some "secret"%string)
               (fun _ _ => (lift (Samples.agreeing "chatgpt"),
                            lift (Samples.agreeing "gemini"),
                            lift (Samples.agreeing "claude")))
               ["Why is the sky blue?"%string])) = []
  /\ Cli.missing_keys
       (fun key => if String.eqb key "GEMINI_API_KEY"
                   then Some ""%string else Some "secret"%string)
     = (if Cli.unset
             (fun key => if String.eqb key "GEMINI_API_KEY"
                         then Some ""%string else Some "secret"%string)
             "OPENAI_API_KEY_personal"
        then ["OPENAI_API_KEY_personal"%string] else [])
       ++ (if Cli.unset
                (fun key => if String.eqb key "GEMINI_API_KEY"
                            then Some ""%string else Some "secret"%string)
                "GEMINI_API_KEY"
           then ["GEMINI_API_KEY"%string] else []).
Proof.
  apply (main_stops_without_keys
           (fun key => if String.eqb key "GEMINI_API_KEY"
                       then Some ""%string else Some "secret"%string)
           (fun _ _ => (lift (Samples.agreeing "chatgpt"),
                        lift (Samples.agreeing "gemini"),
                        lift (Samples.agreeing "claude")))
           ["Why is the sky blue?"%string] "GEMINI_API_KEY").
  - right. now left.
  - reflexivity.
Defined.
